(** * E-commerce content automation: validation, generation and error shaping

    A shallow embedding of [error-handler.js] and of the validated server
    (the file that requires [./error-handler]): the product validator, the
    error classes and their wire format, the per-kind content generator, the
    per-product orchestrator and the row loop of [/api/process-products].

    The external collaborators (the text-generation provider, the clock
    behind [new Date()], the stack captured by [Error]) are Section variables
    acting on an abstract [World]; everything else is executable. *)

From Stdlib Require Import ZArith NArith Ascii String List Bool Lia.
From stdpp Require Import base option list strings gmap.

Local Open Scope Z_scope.

(* ===================================================================== *)
(** ** JavaScript values *)
(* ===================================================================== *)

(** A JS string is a Rocq [string] whose characters are its code units; only
    code units below 256 are representable. *)

(** A Number is carried by the exact decimal it was read from:
    [Dec neg m e] stands for the double nearest to [(-1)^neg * m * 10^e].
    The validators only observe whether a number is NaN, whether it is zero
    and whether it is below zero, and those three observations are computed
    exactly below (including underflow of tiny literals to zero). *)
Inductive jsnum : Type :=
  | NaN
  | Infinity (neg : bool)
  | Dec (neg : bool) (m : N) (e : Z).

(** The values a JSON body or a spreadsheet cell can put in a field.
    [JObj repr] is an array or a plain object, carried with the string its
    inherited [toString()] returns (["[object Object]"], or the joined
    elements of an array). *)
Inductive jsval : Type :=
  | JUndefined
  | JNull
  | JBool (b : bool)
  | JNum (n : jsnum)
  | JStr (s : string)
  | JObj (repr : string).

Module JS.

(** [m * 10^e], when it is not zero, rounds to the double zero exactly when
    it is at most [2^-1075] (half of the least subnormal; the tie goes to
    the even neighbour, zero). *)
Definition rounds_to_zero (m : N) (e : Z) : bool :=
  (m =? 0)%N
  || ((e <? 0) && (Z.of_N m * 2 ^ 1075 <=? 10 ^ (- e))).

Definition is_nan (n : jsnum) : bool :=
  match n with NaN => true | _ => false end.

Definition is_zero (n : jsnum) : bool :=
  match n with Dec _ m e => rounds_to_zero m e | _ => false end.

(** [n < 0] *)
Definition lt0 (n : jsnum) : bool :=
  match n with
  | NaN => false
  | Infinity neg => neg
  | Dec neg m e => neg && negb (rounds_to_zero m e)
  end.

(** ToBoolean *)
Definition truthy (v : jsval) : bool :=
  match v with
  | JUndefined | JNull => false
  | JBool b => b
  | JNum n => negb (is_nan n) && negb (is_zero n)
  | JStr s => negb (String.eqb s "")
  | JObj _ => true
  end.

(** [typeof v === 'string'] *)
Definition is_string (v : jsval) : bool :=
  match v with JStr _ => true | _ => false end.

(** WhiteSpace and LineTerminator code units below 256:
    TAB, LF, VT, FF, CR, SP and NBSP. *)
Definition is_ws (c : ascii) : bool :=
  let n := N_of_ascii c in
  ((9 <=? n) && (n <=? 13) || (n =? 32) || (n =? 160))%N.

Fixpoint trim_start (s : string) : string :=
  match s with
  | String c s' => if is_ws c then trim_start s' else s
  | EmptyString => EmptyString
  end.

Fixpoint trim_end (s : string) : string :=
  match s with
  | String c s' =>
      let t := trim_end s' in
      if is_ws c && String.eqb t "" then EmptyString else String c t
  | EmptyString => EmptyString
  end.

(** [String.prototype.trim] *)
Definition trim (s : string) : string := trim_end (trim_start s).

(** *** Numeric literals *)

Definition digit_of (radix : N) (c : ascii) : option N :=
  let n := N_of_ascii c in
  let d :=
    (if (48 <=? n) && (n <=? 57) then Some (n - 48)
     else if (97 <=? n) && (n <=? 102) then Some (n - 87)
     else if (65 <=? n) && (n <=? 70) then Some (n - 55)
     else None)%N in
  match d with
  | Some k => if (k <? radix)%N then Some k else None
  | None => None
  end.

(** Reads the longest run of digits, continuing the accumulator [acc];
    returns the value, the number of digits read and the rest. *)
Fixpoint read_digits (radix : N) (s : string) (acc : N) (cnt : nat)
  : N * nat * string :=
  match s with
  | String c s' =>
      match digit_of radix c with
      | Some d => read_digits radix s' (radix * acc + d)%N (S cnt)
      | None => (acc, cnt, s)
      end
  | EmptyString => (acc, cnt, s)
  end.

Fixpoint strip_prefix (p s : string) : option string :=
  match p, s with
  | EmptyString, _ => Some s
  | String a p', String b s' =>
      if Ascii.eqb a b then strip_prefix p' s' else None
  | String _ _, EmptyString => None
  end.

(** ExponentPart, optional: [e] or [E], an optional sign, at least one
    digit.  Returns the exponent and the rest; without a well-formed
    exponent nothing is consumed. *)
Definition read_exponent (s : string) : Z * string :=
  match s with
  | String c s1 =>
      if Ascii.eqb c "e" || Ascii.eqb c "E" then
        let '(neg, s2) :=
          match s1 with
          | String sg s2 =>
              if Ascii.eqb sg "-" then (true, s2)
              else if Ascii.eqb sg "+" then (false, s2)
              else (false, s1)
          | EmptyString => (false, s1)
          end in
        let '(x, cnt, rest) := read_digits 10 s2 0%N 0%nat in
        match cnt with
        | O => (0, s)
        | S _ => ((if neg then - Z.of_N x else Z.of_N x), rest)
        end
      else (0, s)
  | EmptyString => (0, s)
  end.

(** Longest prefix of [s] that is a StrUnsignedDecimalLiteral. *)
Definition read_unsigned (neg : bool) (s : string) : option (jsnum * string) :=
  match strip_prefix "Infinity" s with
  | Some rest => Some (Infinity neg, rest)
  | None =>
      let '(i, ni, r1) := read_digits 10 s 0%N 0%nat in
      match r1 with
      | String "." r1' =>
          let '(m, nf, r2) := read_digits 10 r1' i 0%nat in
          match ni, nf with
          | O, O => None
          | _, _ =>
              let '(x, rest) := read_exponent r2 in
              Some (Dec neg m (x - Z.of_nat nf), rest)
          end
      | _ =>
          match ni with
          | O => None
          | S _ =>
              let '(x, rest) := read_exponent r1 in
              Some (Dec neg i x, rest)
          end
      end
  end.

(** Longest prefix of [s] that is a StrDecimalLiteral. *)
Definition read_decimal (s : string) : option (jsnum * string) :=
  match s with
  | String c s' =>
      if Ascii.eqb c "-" then read_unsigned true s'
      else if Ascii.eqb c "+" then read_unsigned false s'
      else read_unsigned false s
  | EmptyString => None
  end.

(** NonDecimalIntegerLiteral: [0x], [0o] or [0b] and at least one digit,
    the whole string. *)
Definition read_nondecimal (s : string) : option jsnum :=
  match s with
  | String "0" (String p ds) =>
      let radix :=
        if Ascii.eqb p "x" || Ascii.eqb p "X" then Some 16%N
        else if Ascii.eqb p "o" || Ascii.eqb p "O" then Some 8%N
        else if Ascii.eqb p "b" || Ascii.eqb p "B" then Some 2%N
        else None in
      match radix with
      | Some r =>
          match read_digits r ds 0%N 0%nat with
          | (v, S _, EmptyString) => Some (Dec false v 0)
          | _ => None
          end
      | None => None
      end
  | _ => None
  end.

(** StringToNumber *)
Definition StringToNumber (s : string) : jsnum :=
  let t := trim s in
  if String.eqb t "" then Dec false 0 0
  else
    match read_decimal t with
    | Some (n, EmptyString) => n
    | _ =>
        match read_nondecimal t with
        | Some n => n
        | None => NaN
        end
    end.

(** ToNumber; an object goes through its string form. *)
Definition ToNumber (v : jsval) : jsnum :=
  match v with
  | JUndefined => NaN
  | JNull => Dec false 0 0
  | JBool b => Dec false (if b then 1 else 0) 0
  | JNum n => n
  | JStr s => StringToNumber s
  | JObj repr => StringToNumber repr
  end.

(** The global [isNaN] *)
Definition isNaN (v : jsval) : bool := is_nan (ToNumber v).

Definition parseFloat_string (s : string) : jsnum :=
  match read_decimal (trim_start s) with
  | Some (n, _) => n
  | None => NaN
  end.

(** The global [parseFloat]: the argument is converted to a string and the
    longest decimal prefix is read.  The string form of a Number reads back
    as that Number, so a Number is returned as it is. *)
Definition parseFloat (v : jsval) : jsnum :=
  match v with
  | JUndefined => parseFloat_string "undefined"
  | JNull => parseFloat_string "null"
  | JBool b => parseFloat_string (if b then "true" else "false")
  | JNum n => n
  | JStr s => parseFloat_string s
  | JObj repr => parseFloat_string repr
  end.

End JS.

(* ===================================================================== *)
(** ** Error objects ([error-handler.js], classes) *)
(* ===================================================================== *)

(** The class an error object was constructed from.  [ClsOther] covers every
    error that is not an [APIError]: native errors such as [TypeError] and
    the errors the provider's client rejects with. *)
Inductive errclass : Type :=
  | ClsAPIError
  | ClsValidationError
  | ClsQuotaError
  | ClsGoogleSheetsError
  | ClsOpenAIError
  | ClsOther (ctor : string).

(** The properties of an error object that the program reads.  [None] is a
    property that is absent (or [null] for [field]).  [status] is the HTTP
    status a provider error reports; [stack] is the captured stack trace. *)
Record jserror : Type := mkError {
  cls : errclass;
  message : option string;
  statusCode : option Z;
  code : option string;
  field : option string;
  timestamp : option string;
  status : option Z;
  stack : option string
}.

(** [error instanceof APIError] *)
Definition instanceof_APIError (error : jserror) : bool :=
  match cls error with ClsOther _ => false | _ => true end.

(** The object [formatErrorResponse] returns; [None] is [undefined]. *)
Record errorResponse : Type := mkResponse {
  resp_error : option string;
  resp_code : option string;
  resp_field : option string;
  resp_timestamp : option string
}.

(** [x || undefined] and [x || d] on an optional string. *)
Definition nonempty (x : option string) : option string :=
  match x with
  | Some s => if String.eqb s "" then None else Some s
  | None => None
  end.

Definition or_default (x : option string) (d : string) : string :=
  match nonempty x with Some s => s | None => d end.

(** A value inside a template literal. *)
Definition show_opt (x : option string) : string :=
  match x with Some s => s | None => "undefined" end.

(* ===================================================================== *)
(** ** Products, requests and results *)
(* ===================================================================== *)

Record productData : Type := mkProduct {
  sku : jsval;
  name : jsval;
  category : jsval;
  features : jsval;
  price : jsval;
  audience : jsval;
  useCase : jsval
}.

Inductive content_type : Type := title | bulletPoints | aContent | adCopy.

#[global] Instance content_type_eq_dec : EqDecision content_type.
Proof. solve_decision. Defined.

(** The property key of a content type in [PROMPTS] and in [results]. *)
Definition key (ct : content_type) : string :=
  match ct with
  | title => "title"
  | bulletPoints => "bulletPoints"
  | aContent => "aContent"
  | adCopy => "adCopy"
  end.

(** The argument of [openai.chat.completions.create]; the temperature 0.7
    is kept as the fraction 7/10. *)
Record request : Type := mkRequest {
  model : string;
  system_content : string;
  user_content : string;
  temperature : Z * Z;
  max_tokens : Z
}.

(** What the provider call settles to: a response, of which the program reads
    [choices[i].message.content] (a string or [null]), or a rejection. *)
Inductive provider_result : Type :=
  | Resolved (choices : list (option string))
  | Rejected (error : jserror).

(** An entry of the [errors] array of [generateAllContent]. *)
Record failure : Type := mkFailure {
  contentType : content_type;
  error : option string
}.

Record generationResult : Type := mkResult {
  productName : jsval;
  gen_status : string;
  data : gmap string string;
  errors : option (list failure);
  gen_timestamp : string
}.

(** The per-kind failures of a result ([errors] is [undefined] when there
    are none). *)
Definition failures (r : generationResult) : list failure :=
  match errors r with Some l => l | None => [] end.

(* ===================================================================== *)
(** ** Computations: state and exceptions *)
(* ===================================================================== *)

Inductive outcome (A : Type) : Type :=
  | Ret (a : A)
  | Throw (e : jserror).
Arguments Ret {A} a.
Arguments Throw {A} e.

(** The state threaded through the program: the outside world and the
    requests sent to the provider so far, oldest first. *)
Record state (World : Type) : Type := mkState {
  world : World;
  sent : list request
}.
Arguments mkState {World} world sent.
Arguments world {World} s.
Arguments sent {World} s.

Definition M (World A : Type) : Type := state World -> outcome A * state World.

Definition ret {World A} (a : A) : M World A := fun st => (Ret a, st).

Definition throw {World A} (e : jserror) : M World A := fun st => (Throw e, st).

Definition bind {World A B} (c : M World A) (k : A -> M World B) : M World B :=
  fun st =>
    match c st with
    | (Ret a, st') => k a st'
    | (Throw e, st') => (Throw e, st')
    end.

(** [try { c } catch (error) { h error }] *)
Definition try_catch {World A} (c : M World A) (h : jserror -> M World A)
  : M World A :=
  fun st =>
    match c st with
    | (Ret a, st') => (Ret a, st')
    | (Throw e, st') => h e st'
    end.

Notation "'let*' x ':=' c 'in' k" := (bind c (fun x => k))
  (at level 10, x name, c at level 100, k at level 200, only parsing).
Notation "'do*' c 'in' k" := (bind c (fun _ => k))
  (at level 10, c at level 100, k at level 200, only parsing).

Definition threw {A} (o : outcome A) : bool :=
  match o with Throw _ => true | Ret _ => false end.

(* ===================================================================== *)
(** ** The program *)
(* ===================================================================== *)

Section Server.

Context {World : Type}.

(** [new Date().toISOString()]: reads the clock. *)
Variable Date_toISOString : World -> string * World.
(** The stack trace [Error] captures when an error is constructed. *)
Variable Error_captureStackTrace : World -> string.
(** [openai.chat.completions.create(request)], awaited. *)
Variable chat_completions_create : request -> World -> provider_result * World.
(** [process.env.OPENAI_MODEL] *)
Variable OPENAI_MODEL : option string.
(** [Number.prototype.toString], used when a number lands in a prompt. *)
Variable Number_toString : jsnum -> string.

Abbreviation M := (M World).

Definition new_Date_toISOString : M string :=
  fun st =>
    let '(t, w) := Date_toISOString (world st) in
    (Ret t, mkState w (sent st)).

Definition captureStackTrace : M string :=
  fun st => (Ret (Error_captureStackTrace (world st)), st).

(** *** error-handler.js *)

(** [class APIError extends Error]:
    [constructor(message, statusCode = 500, code = 'INTERNAL_ERROR')] *)
Definition new_APIError (c : errclass) (msg : string)
    (sc : option Z) (cd : option string) (fld : option string) : M jserror :=
  let* stk := captureStackTrace in
  let* ts := new_Date_toISOString in
  ret {| cls := c;
         message := Some msg;
         statusCode := Some (default 500 sc);
         code := Some (default "INTERNAL_ERROR" cd);
         field := fld;
         timestamp := Some ts;
         status := None;
         stack := Some stk |}.

(** [constructor(message, field = null)] *)
Definition new_ValidationError (msg : string) (fld : option string) : M jserror :=
  new_APIError ClsValidationError msg (Some 400) (Some "VALIDATION_ERROR") fld.

(** [constructor(message = 'API quota exceeded. ...')] *)
Definition new_QuotaError (msg : option string) : M jserror :=
  new_APIError ClsQuotaError
    (default "API quota exceeded. Please check your plan and billing details." msg)
    (Some 429) (Some "QUOTA_EXCEEDED") None.

(** [constructor(message, statusCode = 500)] *)
Definition new_GoogleSheetsError (msg : string) (sc : option Z) : M jserror :=
  new_APIError ClsGoogleSheetsError msg (Some (default 500 sc))
    (Some "GOOGLE_SHEETS_ERROR") None.

(** [constructor(message, statusCode = 500)] *)
Definition new_OpenAIError (msg : string) (sc : option Z) : M jserror :=
  new_APIError ClsOpenAIError msg (Some (default 500 sc))
    (Some "OPENAI_ERROR") None.

(** A native [TypeError], as the engine raises it. *)
Definition new_TypeError (msg : string) : M jserror :=
  let* stk := captureStackTrace in
  ret {| cls := ClsOther "TypeError";
         message := Some msg;
         statusCode := None;
         code := None;
         field := None;
         timestamp := None;
         status := None;
         stack := Some stk |}.

Definition status_is (error : jserror) (n : Z) : bool :=
  match status error with Some s => s =? n | None => false end.

Definition status_ge (error : jserror) (n : Z) : bool :=
  match status error with Some s => n <=? s | None => false end.

Definition formatErrorResponse (error : jserror) : M errorResponse :=
  if instanceof_APIError error then
    ret {| resp_error := message error;
           resp_code := code error;
           resp_field := nonempty (field error);
           resp_timestamp := timestamp error |}
  else if status_is error 429 then
    let* ts := new_Date_toISOString in
    ret {| resp_error :=
             Some "API quota exceeded. Please check your plan and billing details.";
           resp_code := Some "QUOTA_EXCEEDED";
           resp_field := None;
           resp_timestamp := Some ts |}
  else if status_is error 401 then
    let* ts := new_Date_toISOString in
    ret {| resp_error :=
             Some "Invalid API credentials. Please check your authentication.";
           resp_code := Some "AUTH_ERROR";
           resp_field := None;
           resp_timestamp := Some ts |}
  else if status_ge error 500 then
    let* ts := new_Date_toISOString in
    ret {| resp_error := Some "External API error. Please try again later.";
           resp_code := Some "EXTERNAL_ERROR";
           resp_field := None;
           resp_timestamp := Some ts |}
  else
    let* ts := new_Date_toISOString in
    ret {| resp_error :=
             Some (or_default (message error) "An unexpected error occurred");
           resp_code := Some "UNKNOWN_ERROR";
           resp_field := None;
           resp_timestamp := Some ts |}.

(** [errorHandler]: the status and the body handed to
    [res.status(..).json(..)].  The [console.error] line, which does print
    the stack, writes to the server's log and not to the response. *)
Definition errorHandler (err : jserror) : M (Z * errorResponse) :=
  let sc :=
    match statusCode err with
    | Some s => if s =? 0 then 500 else s
    | None => 500
    end in
  let* errorResponse := formatErrorResponse err in
  ret (sc, errorResponse).

(** [v.trim()] where [v] is truthy: only a string has the method. *)
Definition call_trim (path : string) (v : jsval) : M string :=
  match v with
  | JStr s => ret (JS.trim s)
  | _ =>
      let* e := new_TypeError (path +:+ ".trim is not a function") in
      throw e
  end.

(** [!v || v.trim() === ''] *)
Definition missing_or_blank (path : string) (v : jsval) : M bool :=
  if negb (JS.truthy v) then ret true
  else
    let* t := call_trim path v in
    ret (String.eqb t "").

(** [data.price !== undefined &&
     (isNaN(data.price) || parseFloat(data.price) < 0)] *)
Definition price_rejected (v : jsval) : bool :=
  match v with
  | JUndefined => false
  | _ => JS.isNaN v || JS.lt0 (JS.parseFloat v)
  end.

(** [data.features && typeof data.features !== 'string'] *)
Definition features_rejected (v : jsval) : bool :=
  JS.truthy v && negb (JS.is_string v).

(** [errors.push(x)] on the local array. *)
Definition push {A} (l : list A) (x : A) : list A := l ++ [x].

Definition validateProductData (data : productData) : M unit :=
  let errors : list string := [] in
  let* b := missing_or_blank "data.name" (name data) in
  let errors := if b then push errors "Product name is required" else errors in
  let* b := missing_or_blank "data.category" (category data) in
  let errors :=
    if b then push errors "Product category is required" else errors in
  let errors :=
    if price_rejected (price data)
    then push errors "Product price must be a valid positive number"
    else errors in
  let errors :=
    if features_rejected (features data)
    then push errors "Product features must be a string"
    else errors in
  if (0 <? length errors)%nat then
    let* e := new_ValidationError (String.concat "; " errors) None in
    throw e
  else ret tt.

(** *** The server *)

(** A value interpolated into a template literal. *)
Definition ToString (v : jsval) : string :=
  match v with
  | JUndefined => "undefined"
  | JNull => "null"
  | JBool b => if b then "true" else "false"
  | JNum n => Number_toString n
  | JStr s => s
  | JObj repr => repr
  end.

(** [v || d] interpolated into a template literal. *)
Definition ToString_or (v : jsval) (d : string) : string :=
  if JS.truthy v then ToString v else d.

Definition newline : string := String (ascii_of_N 10) EmptyString.

Definition lines (l : list string) : string := String.concat newline l.

(** The prompt templates; each starts with a line break and ends with a
    line break and two spaces, as the template literals do. *)
Definition PROMPTS (ct : content_type) (productData : productData) : string :=
  match ct with
  | title => lines [
      "";
      "Generate an SEO-optimized Amazon product title (max 60 characters) for:";
      "Product: " +:+ ToString (name productData);
      "Category: " +:+ ToString (category productData);
      "Key Features: " +:+ ToString (features productData);
      "";
      "Requirements:";
      "- Include main keyword";
      "- Include key feature/benefit";
      "- Professional, scannable";
      "- NO ALL CAPS, NO special characters except -";
      "";
      "Return ONLY the title, nothing else.";
      "  " ]
  | bulletPoints => lines [
      "";
      "Create 5 compelling bullet points for an Amazon listing:";
      "Product: " +:+ ToString (name productData);
      "Category: " +:+ ToString (category productData);
      "Features: " +:+ ToString (features productData);
      "Price: $" +:+ ToString (price productData);
      "Target Audience: " +:+ ToString_or (audience productData) "General";
      "";
      "Requirements:";
      "- Start each with a benefit/feature";
      "- Use power words (premium, advanced, efficient, etc.)";
      "- Include specific details when possible";
      "- 85 characters max per bullet";
      "- One should mention value/price relationship";
      "";
      "Format as numbered list.";
      "  " ]
  | aContent => lines [
      "";
      "Create an Amazon A+ Content (Enhanced Brand Content) for:";
      "Product: " +:+ ToString (name productData);
      "Category: " +:+ ToString (category productData);
      "Features: " +:+ ToString (features productData);
      "Target Use Case: " +:+ ToString_or (useCase productData) "Not specified";
      "";
      "Provide 3 sections:";
      "";
      "1. **Overview Section**: 1-2 sentences explaining main benefit";
      "2. **Comparison Section**: How this product solves customer pain points (3-4 points)";
      "3. **Value Proposition**: Why choose this product (2-3 key differentiators)";
      "";
      "Use markdown formatting.";
      "  " ]
  | adCopy => lines [
      "";
      "Create 3 different ad copy variations for:";
      "Product: " +:+ ToString (name productData);
      "Features: " +:+ ToString (features productData);
      "Price: $" +:+ ToString (price productData);
      "Target: " +:+ ToString_or (audience productData) "General audience";
      "";
      "Requirements:";
      "- Variation 1: Benefit-focused (for social media)";
      "- Variation 2: Problem-solution focused (for email)";
      "- Variation 3: Urgency/value focused (for display ads)";
      "- Each 2-3 sentences max";
      "- Include call-to-action";
      "";
      "Label each variation clearly.";
      "  " ]
  end.

(** The request [generateContent] sends for a content type. *)
Definition completion_request (ct : content_type) (productData : productData)
  : request :=
  {| model := or_default OPENAI_MODEL "gpt-4";
     system_content :=
       "You are an expert e-commerce copywriter specializing in product descriptions. Be concise, compelling, and SEO-aware.";
     user_content := PROMPTS ct productData;
     temperature := (7, 10);
     max_tokens := 500 |}.

(** [await openai.chat.completions.create(req)]: the request is recorded
    as sent; a rejection is thrown. *)
Definition await_create (req : request) : M (list (option string)) :=
  fun st =>
    let '(r, w) := chat_completions_create req (world st) in
    let st' := mkState w (sent st ++ [req]) in
    match r with
    | Resolved choices => (Ret choices, st')
    | Rejected e => (Throw e, st')
    end.

(** [response.choices[0].message.content.trim()] *)
Definition first_content_trimmed (choices : list (option string)) : M string :=
  match choices !! 0%nat with
  | None =>
      let* e := new_TypeError
        "Cannot read properties of undefined (reading 'message')" in
      throw e
  | Some None =>
      let* e := new_TypeError
        "Cannot read properties of null (reading 'trim')" in
      throw e
  | Some (Some content) => ret (JS.trim content)
  end.

Definition generateContent (ct : content_type) (productData : productData)
  : M string :=
  try_catch
    (let* response := await_create (completion_request ct productData) in
     first_content_trimmed response)
    (fun error =>
       if status_is error 429 then
         let* e := new_QuotaError None in throw e
       else if status_is error 401 then
         let* e := new_OpenAIError "Invalid OpenAI API key" (Some 401) in
         throw e
       else
         let* e := new_OpenAIError
           ("Failed to generate " +:+ key ct +:+ ": "
              +:+ show_opt (message error)) None in
         throw e).

Definition contentTypes : list content_type :=
  [title; bulletPoints; aContent; adCopy].

(** The [for (const contentType of contentTypes)] loop, acting on the two
    locals [results] and [errors]. *)
Fixpoint generate_each (cts : list content_type) (productData : productData)
    (results : gmap string string) (errors : list failure)
  : M (gmap string string * list failure) :=
  match cts with
  | [] => ret (results, errors)
  | ct :: rest =>
      let* locals :=
        try_catch
          (let* text := generateContent ct productData in
           ret (<[key ct := text]> results, errors))
          (fun error =>
             ret (results,
                  push errors {| contentType := ct;
                                 error := message error |})) in
      generate_each rest productData locals.1 locals.2
  end.

Definition generateAllContent (productData : productData)
  : M generationResult :=
  try_catch
    (do* validateProductData productData in
     let* locals := generate_each contentTypes productData ∅ [] in
     let results := locals.1 in
     let errors := locals.2 in
     let* now := new_Date_toISOString in
     ret {| productName := name productData;
            gen_status :=
              if (length errors =? 0)%nat then "success" else "partial_success";
            data := results;
            errors := if (0 <? length errors)%nat then Some errors else None;
            gen_timestamp := now |})
    (fun error => throw error).

(** [row[i]] on a row of cell strings. *)
Definition cell (row : list string) (i : nat) : jsval :=
  match row !! i with
  | Some s => JStr s
  | None => JUndefined
  end.

Definition product_of_row (row : list string) : productData :=
  {| sku := cell row 0;
     name := cell row 1;
     category := cell row 2;
     features := cell row 3;
     price := cell row 4;
     audience := cell row 5;
     useCase := cell row 6 |}.

(** The [for (const row of productRows)] loop of [/api/process-products]. *)
Fixpoint process_rows (productRows : list (list string))
    (results : list generationResult) : M (list generationResult) :=
  match productRows with
  | [] => ret results
  | row :: rest =>
      let* result := generateAllContent (product_of_row row) in
      process_rows rest (push results result)
  end.

(** Lines 274 to 291 of the handler: skip the header row, then process
    each product row. *)
Definition processBatch (rows : list (list string))
  : M (list generationResult) :=
  let productRows := drop 1 rows in
  process_rows productRows [].

(** *** Notions used to state the properties *)

(** What [!v || v.trim() === ''] yields when it does not raise. *)
Definition blank (v : jsval) : bool :=
  match v with
  | JStr s => String.eqb (JS.trim s) ""
  | _ => negb (JS.truthy v)
  end.

(** [v] is a string or falsy, so that [v.trim()] never runs on a value
    without the method. *)
Definition trimmable (v : jsval) : bool :=
  JS.is_string v || negb (JS.truthy v).

(** An optional text field of the data model. *)
Definition optional_text (x : option string) : jsval :=
  match x with Some s => JStr s | None => JUndefined end.

(** The error [new ValidationError(msg)] builds in state [st], and the
    state it leaves. *)
Definition validation_error (msg : string) (st : state World) : jserror :=
  {| cls := ClsValidationError;
     message := Some msg;
     statusCode := Some 400;
     code := Some "VALIDATION_ERROR";
     field := None;
     timestamp := Some (Date_toISOString (world st)).1;
     status := None;
     stack := Some (Error_captureStackTrace (world st)) |}.

Definition after_clock (st : state World) : state World :=
  mkState (Date_toISOString (world st)).2 (sent st).

(** The messages of the violated checks, in the order they are pushed. *)
Definition violations (data : productData) : list string :=
  (if blank (name data) then ["Product name is required"] else [])
  ++ (if blank (category data) then ["Product category is required"] else [])
  ++ (if price_rejected (price data)
      then ["Product price must be a valid positive number"] else [])
  ++ (if features_rejected (features data)
      then ["Product features must be a string"] else []).

(** The state once [generateContent] has run for each of [cts] in turn. *)
Fixpoint state_after (cts : list content_type) (productData : productData)
    (st : state World) : state World :=
  match cts with
  | [] => st
  | ct :: rest =>
      state_after rest productData (generateContent ct productData st).2
  end.

(** The content types [generateAllContent] handles before [ct]. *)
Definition preceding (ct : content_type) : list content_type :=
  match ct with
  | title => []
  | bulletPoints => [title]
  | aContent => [title; bulletPoints]
  | adCopy => [title; bulletPoints; aContent]
  end.

(** The state in which [generateAllContent], started in [st] on a record
    that passes validation, reaches the turn of [ct]. *)
Definition turn (ct : content_type) (productData : productData)
    (st : state World) : state World :=
  state_after (preceding ct) productData st.

(** What the provider answers to the request for [ct] at its turn, and what
    [generateContent] makes of it. *)
Definition provider_answer (ct : content_type) (productData : productData)
    (st : state World) : provider_result :=
  (chat_completions_create (completion_request ct productData)
     (world (turn ct productData st))).1.

Definition attempt (ct : content_type) (productData : productData)
    (st : state World) : outcome string :=
  (generateContent ct productData (turn ct productData st)).1.

(** The state once the request for [ct] has been sent from [st]. *)
Definition sent_state (ct : content_type) (productData : productData)
    (st : state World) : state World :=
  mkState
    (chat_completions_create (completion_request ct productData) (world st)).2
    (sent st ++ [completion_request ct productData]).

(** The message of the error [generateContent] throws when the provider
    rejects the request for [ct] with [e]. *)
Definition rejection_message (ct : content_type) (e : jserror) : string :=
  if status_is e 429
  then "API quota exceeded. Please check your plan and billing details."
  else if status_is e 401 then "Invalid OpenAI API key"
  else "Failed to generate " +:+ key ct +:+ ": " +:+ show_opt (message e).

(** What an attempt contributes to [results] and to [errors]. *)
Definition text_of (o : outcome string) : option string :=
  match o with Ret text => Some text | Throw _ => None end.

Definition failure_of (ct : content_type) (o : outcome string) : list failure :=
  match o with
  | Ret _ => []
  | Throw e => [{| contentType := ct; error := message e |}]
  end.

(** The state [new Date().toISOString()] leaves, and the error a
    constructor of [APIError]'s family builds in state [st]. *)
Definition api_error (c : errclass) (msg : string) (sc : Z) (cd : string)
    (st : state World) : jserror :=
  {| cls := c;
     message := Some msg;
     statusCode := Some sc;
     code := Some cd;
     field := None;
     timestamp := Some (Date_toISOString (world st)).1;
     status := None;
     stack := Some (Error_captureStackTrace (world st)) |}.

(** [e] with another stack trace. *)
Definition with_stack (e : jserror) (s : option string) : jserror :=
  {| cls := cls e;
     message := message e;
     statusCode := statusCode e;
     code := code e;
     field := field e;
     timestamp := timestamp e;
     status := status e;
     stack := s |}.

End Server.

(* ===================================================================== *)
(** ** A scripted world for concrete runs *)
(* ===================================================================== *)

(** The provider answers from a script, one entry per call, and resolves with
    the text ["ok"] once the script is used up; the clock stands still. *)
Module Scripted.

Definition World : Type := list provider_result.

Definition Date_toISOString (w : World) : string * World :=
  ("2024-01-01T00:00:00.000Z", w).

Definition Error_captureStackTrace (w : World) : string :=
  "Error at generateContent (server.js)".

Definition chat_completions_create (req : request) (w : World)
  : provider_result * World :=
  match w with
  | r :: w' => (r, w')
  | [] => (Resolved [Some "ok"], [])
  end.

Definition OPENAI_MODEL : option string := None.

(** No Number reaches a prompt in the runs below. *)
Definition Number_toString (n : jsnum) : string := "NaN".

(** What the provider's client rejects with for an HTTP status. *)
Definition http_error (s : Z) (msg : string) : jserror :=
  {| cls := ClsOther "APIError";
     message := Some msg;
     statusCode := None;
     code := None;
     field := None;
     timestamp := None;
     status := Some s;
     stack := Some "Error at generateContent (server.js)" |}.

Definition start (script : World) : state World := mkState script [].

Definition product (n c p : jsval) : productData :=
  {| sku := JUndefined; name := n; category := c; features := JUndefined;
     price := p; audience := JUndefined; useCase := JUndefined |}.

Definition validate := validateProductData Date_toISOString Error_captureStackTrace.
Definition generate :=
  generateContent Date_toISOString Error_captureStackTrace
    chat_completions_create OPENAI_MODEL Number_toString.
Definition generateAll :=
  generateAllContent Date_toISOString Error_captureStackTrace
    chat_completions_create OPENAI_MODEL Number_toString.
Definition batch :=
  processBatch Date_toISOString Error_captureStackTrace
    chat_completions_create OPENAI_MODEL Number_toString.

Definition attempt :=
  attempt Date_toISOString Error_captureStackTrace
    chat_completions_create OPENAI_MODEL Number_toString.
Definition provider_answer :=
  provider_answer Date_toISOString Error_captureStackTrace
    chat_completions_create OPENAI_MODEL Number_toString.
Definition request_for := completion_request OPENAI_MODEL Number_toString.
Definition format := @formatErrorResponse World Date_toISOString.
Definition handler := @errorHandler World Date_toISOString.

(** A record that passes validation. *)
Definition widget : productData :=
  product (JStr "Widget") (JStr "Tools") (JStr "19.99").

(** A sheet: the header and three product rows, the second without a
    name. *)
Definition header : list string :=
  ["SKU"; "Name"; "Category"; "Features"; "Price"].
Definition row_widget : list string :=
  ["W-1"; "Widget"; "Tools"; "Sturdy"; "19.99"].
Definition row_nameless : list string :=
  ["N-2"; ""; "Tools"; ""; "5"].
Definition row_gadget : list string :=
  ["G-3"; "Gadget"; "Toys"; "Shiny"; "7"].

(** A native error without any recognised shape. *)
Definition range_error : jserror :=
  {| cls := ClsOther "RangeError";
     message := Some "Invalid array length";
     statusCode := None;
     code := None;
     field := None;
     timestamp := None;
     status := None;
     stack := Some "RangeError: Invalid array length at main (server.js)" |}.

End Scripted.

(* ===================================================================== *)
(** ** What the specification calls a price *)
(* ===================================================================== *)

(** Follows the specification's words, "a non-negative number": a Number
    that is neither NaN nor below zero, or a text that spells one. *)
Definition spec_nonnegative_number (v : jsval) : bool :=
  match v with
  | JNum n => negb (JS.is_nan n) && negb (JS.lt0 n)
  | JStr s =>
      negb (String.eqb (JS.trim s) "")
      && negb (JS.is_nan (JS.StringToNumber s))
      && negb (JS.lt0 (JS.StringToNumber s))
  | _ => false
  end.

(** Follows the specification's words, "price present and not a non-negative
    number". *)
Definition spec_price_violation (v : jsval) : Prop :=
  v ≠ JUndefined ∧ spec_nonnegative_number v = false.
(* ===================================================================== *)
(** ** The spreadsheet and the two endpoints *)
(* ===================================================================== *)

(** The three fields [/api/process-products] reads from the request body. *)
Record spreadsheetParams : Type := mkParams {
  spreadsheetId : jsval;
  inputRange : jsval;
  outputRange : jsval
}.

(** What [sheets.spreadsheets.values.get] settles to: a response, of which
    the program reads [data.values] (rows of cell texts, or absent when the
    range is empty), or a rejection. *)
Inductive get_result : Type :=
  | GetResolved (values : option (list (list string)))
  | GetRejected (error : jserror).

(** What [sheets.spreadsheets.values.update] settles to. *)
Inductive update_result : Type :=
  | UpdateResolved
  | UpdateRejected (error : jserror).

(** A call made to the spreadsheet store. *)
Inductive sheets_call : Type :=
  | SheetsGet (id range : jsval)
  | SheetsUpdate (id range : jsval) (values : list (list jsval)).

(** The state of a request handler: the state of the generator and the calls
    made to the spreadsheet store so far, oldest first. *)
Record hstate (World : Type) : Type := mkH {
  core : state World;
  sheet_calls : list sheets_call
}.
Arguments mkH {World} core sheet_calls.
Arguments core {World} h.
Arguments sheet_calls {World} h.

Definition H (World A : Type) : Type :=
  hstate World -> outcome A * hstate World.

Definition hret {World A} (a : A) : H World A := fun hs => (Ret a, hs).

Definition hthrow {World A} (e : jserror) : H World A :=
  fun hs => (Throw e, hs).

Definition hbind {World A B} (c : H World A) (k : A -> H World B)
  : H World B :=
  fun hs =>
    match c hs with
    | (Ret a, hs') => k a hs'
    | (Throw e, hs') => (Throw e, hs')
    end.

(** [try { c } catch (error) { h error }] in a handler. *)
Definition htry_catch {World A} (c : H World A) (h : jserror -> H World A)
  : H World A :=
  fun hs =>
    match c hs with
    | (Ret a, hs') => (Ret a, hs')
    | (Throw e, hs') => h e hs'
    end.

(** A computation of the generator, run inside a handler. *)
Definition lift {World A} (c : M World A) : H World A :=
  fun hs =>
    let '(o, st') := c (core hs) in
    (o, mkH st' (sheet_calls hs)).

Notation "'let+' x ':=' c 'in' k" := (hbind c (fun x => k))
  (at level 10, x name, c at level 100, k at level 200, only parsing).
Notation "'do+' c 'in' k" := (hbind c (fun _ => k))
  (at level 10, c at level 100, k at level 200, only parsing).

(** The JSON body a handler answers with:
    [NoDataBody] is [{ error: 'No data found in the specified range',
    code: 'NO_DATA', timestamp }]; [ProcessedBody] is
    [{ message: 'Products processed successfully', processed, results,
    timestamp }]; [ResultBody] is a result of [generateAllContent];
    [ErrorBody] is what [formatErrorResponse] returned. *)
Inductive response_body : Type :=
  | NoDataBody (timestamp : string)
  | ProcessedBody (processed : nat) (results : list generationResult)
      (timestamp : string)
  | ResultBody (result : generationResult)
  | ErrorBody (payload : errorResponse).

Record http_response : Type := mkHttp {
  http_status : Z;
  http_body : response_body
}.

Module JSON.

(** The double quote and the backslash. *)
Definition dquote : string := String (ascii_of_N 34) EmptyString.
Definition backslash : string := String (ascii_of_N 92) EmptyString.

Definition hex_digit (n : N) : ascii :=
  if (n <? 10)%N then ascii_of_N (48 + n) else ascii_of_N (87 + n).

(** One code unit inside a JSON string. *)
Definition escape (c : ascii) : string :=
  let n := N_of_ascii c in
  if (n =? 34)%N then backslash +:+ dquote
  else if (n =? 92)%N then backslash +:+ backslash
  else if (n =? 8)%N then backslash +:+ "b"
  else if (n =? 12)%N then backslash +:+ "f"
  else if (n =? 10)%N then backslash +:+ "n"
  else if (n =? 13)%N then backslash +:+ "r"
  else if (n =? 9)%N then backslash +:+ "t"
  else if (n <? 32)%N then
    backslash +:+ "u00"
      +:+ String (hex_digit (n / 16)) (String (hex_digit (n mod 16)) EmptyString)
  else String c EmptyString.

Fixpoint escape_all (s : string) : string :=
  match s with
  | EmptyString => EmptyString
  | String c s' => escape c +:+ escape_all s'
  end.

(** [JSON.stringify] of a string. *)
Definition quote (s : string) : string := dquote +:+ escape_all s +:+ dquote.

(** [JSON.stringify] of an entry [{ contentType, error }]; a property whose
    value is [undefined] is left out. *)
Definition stringify_failure (f : failure) : string :=
  "{" +:+ quote "contentType" +:+ ":" +:+ quote (key (contentType f))
  +:+ match error f with
      | Some msg => "," +:+ quote "error" +:+ ":" +:+ quote msg
      | None => EmptyString
      end
  +:+ "}".

(** [JSON.stringify(result.errors)] *)
Definition stringify (errors : list failure) : string :=
  "[" +:+ String.concat "," (map stringify_failure errors) +:+ "]".

End JSON.

(** Texts made of white space only, and texts holding some white space. *)
Fixpoint all_ws (s : string) : bool :=
  match s with
  | EmptyString => true
  | String c s' => JS.is_ws c && all_ws s'
  end.

Fixpoint has_ws (s : string) : bool :=
  match s with
  | EmptyString => false
  | String c s' => JS.is_ws c || has_ws s'
  end.

Section Endpoints.

Context {World : Type}.
Variable Date_toISOString : World -> string * World.
Variable Error_captureStackTrace : World -> string.
Variable chat_completions_create : request -> World -> provider_result * World.
Variable OPENAI_MODEL : option string.
Variable Number_toString : jsnum -> string.
(** [sheets.spreadsheets.values.get({ auth, spreadsheetId, range })], awaited. *)
Variable sheets_values_get : jsval -> jsval -> World -> get_result * World.
(** [sheets.spreadsheets.values.update({ auth, spreadsheetId, range,
    valueInputOption: 'USER_ENTERED', requestBody: { values } })], awaited. *)
Variable sheets_values_update :
  jsval -> jsval -> list (list jsval) -> World -> update_result * World.

(** *** error-handler.js, continued *)

Definition validateSpreadsheetParams (params : spreadsheetParams)
  : M World unit :=
  let* b := missing_or_blank Error_captureStackTrace "params.spreadsheetId"
              (spreadsheetId params) in
  if b then
    let* e := new_ValidationError Date_toISOString Error_captureStackTrace
                "Spreadsheet ID is required" (Some "spreadsheetId") in
    throw e
  else
  let* b := missing_or_blank Error_captureStackTrace "params.inputRange"
              (inputRange params) in
  if b then
    let* e := new_ValidationError Date_toISOString Error_captureStackTrace
                "Input range is required" (Some "inputRange") in
    throw e
  else
  let* b := missing_or_blank Error_captureStackTrace "params.outputRange"
              (outputRange params) in
  if b then
    let* e := new_ValidationError Date_toISOString Error_captureStackTrace
                "Output range is required" (Some "outputRange") in
    throw e
  else ret tt.

(** *** The server, continued *)

Definition await_get (id range : jsval)
  : H World (option (list (list string))) :=
  fun hs =>
    let '(r, w) := sheets_values_get id range (world (core hs)) in
    let hs' := mkH (mkState w (sent (core hs)))
                   (sheet_calls hs ++ [SheetsGet id range]) in
    match r with
    | GetResolved values => (Ret values, hs')
    | GetRejected e => (Throw e, hs')
    end.

Definition await_update (id range : jsval) (values : list (list jsval))
  : H World unit :=
  fun hs =>
    let '(r, w) := sheets_values_update id range values (world (core hs)) in
    let hs' := mkH (mkState w (sent (core hs)))
                   (sheet_calls hs ++ [SheetsUpdate id range values]) in
    match r with
    | UpdateResolved => (Ret tt, hs')
    | UpdateRejected e => (Throw e, hs')
    end.

Definition readFromSpreadsheet (id range : jsval)
  : H World (list (list string)) :=
  htry_catch
    (let+ values := await_get id range in
     hret (default [] values))
    (fun error =>
       let+ e := lift (new_GoogleSheetsError Date_toISOString
                         Error_captureStackTrace
                         ("Failed to read spreadsheet: "
                            +:+ show_opt (message error)) None) in
       hthrow e).

Definition writeToSpreadsheet (id range : jsval) (values : list (list jsval))
  : H World unit :=
  htry_catch
    (await_update id range values)
    (fun error =>
       let+ e := lift (new_GoogleSheetsError Date_toISOString
                         Error_captureStackTrace
                         ("Failed to write to spreadsheet: "
                            +:+ show_opt (message error)) None) in
       hthrow e).

(** [result.data[k] || ''] *)
Definition text_or_empty (r : generationResult) (k : string) : string :=
  default "" (data r !! k).

(** A row of [outputData]. *)
Definition output_row (result : generationResult) : list jsval :=
  [ productName result;
    JStr (text_or_empty result "title");
    JStr (text_or_empty result "bulletPoints");
    JStr (text_or_empty result "aContent");
    JStr (text_or_empty result "adCopy");
    JStr (gen_status result);
    JStr (match errors result with
          | Some l => JSON.stringify l
          | None => ""
          end) ].

Definition output_header : list jsval :=
  [ JStr "Product Name"; JStr "Title"; JStr "Bullet Points";
    JStr "A+ Content"; JStr "Ad Copy"; JStr "Status"; JStr "Errors" ].

(** [results.map(...)] followed by [outputData.unshift(header)]. *)
Definition outputData (results : list generationResult) : list (list jsval) :=
  output_header :: map output_row results.

(** The body of the [try] of [app.post('/api/process-products')]. *)
Definition process_products_try (body : spreadsheetParams)
  : H World http_response :=
  do+ lift (validateSpreadsheetParams body) in
  let+ rows := readFromSpreadsheet (spreadsheetId body) (inputRange body) in
  if (length rows =? 0)%nat then
    let+ now := lift (new_Date_toISOString Date_toISOString) in
    hret {| http_status := 400; http_body := NoDataBody now |}
  else
    let productRows := drop 1 rows in
    let+ results := lift (processBatch Date_toISOString Error_captureStackTrace
                            chat_completions_create OPENAI_MODEL
                            Number_toString rows) in
    do+ writeToSpreadsheet (spreadsheetId body) (outputRange body)
          (outputData results) in
    let+ now := lift (new_Date_toISOString Date_toISOString) in
    hret {| http_status := 200;
            http_body := ProcessedBody (length productRows) results now |}.

(** [next(error)]: the error reaches [errorHandler], registered last. *)
Definition next (error : jserror) : H World http_response :=
  let+ answer := lift (errorHandler Date_toISOString error) in
  hret {| http_status := answer.1; http_body := ErrorBody answer.2 |}.

(** [POST /api/process-products] *)
Definition api_process_products (body : spreadsheetParams)
  : H World http_response :=
  htry_catch (process_products_try body) next.

(** [POST /api/generate-content] *)
Definition api_generate_content (body : productData) : H World http_response :=
  htry_catch
    (do+ lift (validateProductData Date_toISOString Error_captureStackTrace
                 body) in
     let+ result := lift (generateAllContent Date_toISOString
                            Error_captureStackTrace chat_completions_create
                            OPENAI_MODEL Number_toString body) in
     hret {| http_status := 200; http_body := ResultBody result |})
    next.

(** *** Notions used to state the properties of the endpoints *)

(** The [TypeError] raised in state [st] by [v.trim()] on a value without
    the method, [path] being the source text of [v]. *)
Definition trim_type_error (path : string) (st : state World) : jserror :=
  {| cls := ClsOther "TypeError";
     message := Some (path +:+ ".trim is not a function");
     statusCode := None;
     code := None;
     field := None;
     timestamp := None;
     status := None;
     stack := Some (Error_captureStackTrace (world st)) |}.

(** The code [formatErrorResponse] gives an error that is not an
    [APIError], by the [status] it reports. *)
Definition foreign_code (e : jserror) : string :=
  match status e with
  | Some s =>
      if s =? 429 then "QUOTA_EXCEEDED"
      else if s =? 401 then "AUTH_ERROR"
      else if 500 <=? s then "EXTERNAL_ERROR"
      else "UNKNOWN_ERROR"
  | None => "UNKNOWN_ERROR"
  end.

(** The handler state once the read of [range] has settled. *)
Definition read_state (id range : jsval) (hs : hstate World) : hstate World :=
  mkH (mkState (sheets_values_get id range (world (core hs))).2 (sent (core hs)))
      (sheet_calls hs ++ [SheetsGet id range]).

(** The handler state once the write of [values] to [range] has settled. *)
Definition written_state (id range : jsval) (values : list (list jsval))
    (hs : hstate World) : hstate World :=
  mkH (mkState (sheets_values_update id range values (world (core hs))).2
               (sent (core hs)))
      (sheet_calls hs ++ [SheetsUpdate id range values]).

(** The handler state after one reading of the clock. *)
Definition hafter_clock (hs : hstate World) : hstate World :=
  mkH (after_clock Date_toISOString (core hs)) (sheet_calls hs).

(** The requests [generateAllContent] sends for one record, in order. *)
Definition requests_for (productData : productData) : list request :=
  map (fun ct => completion_request OPENAI_MODEL Number_toString ct productData)
      contentTypes.

End Endpoints.

(** A scripted world for the endpoints: the provider's script, what the
    store answers to a read and what it answers to a write. *)
Module Office.

Record World : Type := mkWorld {
  answers : list provider_result;
  sheet : get_result;
  write_result : update_result
}.

Definition Date_toISOString (w : World) : string * World :=
  ("2024-01-01T00:00:00.000Z", w).

Definition Error_captureStackTrace (w : World) : string :=
  "Error at handler (server.js)".

Definition chat_completions_create (req : request) (w : World)
  : provider_result * World :=
  match answers w with
  | r :: rest => (r, mkWorld rest (sheet w) (write_result w))
  | [] => (Resolved [Some "ok"], w)
  end.

Definition OPENAI_MODEL : option string := None.

(** No Number reaches a prompt in the runs below. *)
Definition Number_toString (n : jsnum) : string := "NaN".

Definition sheets_values_get (id range : jsval) (w : World)
  : get_result * World := (sheet w, w).

Definition sheets_values_update (id range : jsval)
    (values : list (list jsval)) (w : World) : update_result * World :=
  (write_result w, w).

Definition start (w : World) : hstate World := mkH (mkState w []) [].

Definition params : spreadsheetParams :=
  {| spreadsheetId := JStr "sheet-1";
     inputRange := JStr "Products!A1:G";
     outputRange := JStr "Results!A1:G" |}.

Definition store_error (msg : string) : jserror :=
  {| cls := ClsOther "GaxiosError";
     message := Some msg;
     statusCode := None;
     code := None;
     field := None;
     timestamp := None;
     status := Some 403;
     stack := Some "Error at request (gaxios.js)" |}.

(** Parameters whose input range is blank and whose output range is
    missing. *)
Definition blank_range : spreadsheetParams :=
  {| spreadsheetId := JStr "sheet-1";
     inputRange := JStr "  ";
     outputRange := JUndefined |}.

(** A store holding the header and two valid rows, and one whose second
    data row has no name. *)
Definition good_sheet : get_result :=
  GetResolved (Some [Scripted.header; Scripted.row_widget; Scripted.row_gadget]).
Definition bad_sheet : get_result :=
  GetResolved (Some [Scripted.header; Scripted.row_widget;
                     Scripted.row_nameless; Scripted.row_gadget]).

Definition validateParams :=
  @validateSpreadsheetParams World Date_toISOString Error_captureStackTrace.
Definition process_products :=
  api_process_products Date_toISOString Error_captureStackTrace
    chat_completions_create OPENAI_MODEL Number_toString
    sheets_values_get sheets_values_update.
Definition generate_content :=
  @api_generate_content World Date_toISOString Error_captureStackTrace
    chat_completions_create OPENAI_MODEL Number_toString.

End Office.


(* ===================================================================== *)
(** * Properties *)
(* ===================================================================== *)

(** ** Reading numbers and trimming *)

Example number_of_decimal_text : JS.StringToNumber "19.99" = Dec false 1999 (-2).
Proof. reflexivity. Qed.

Example parseFloat_reads_a_prefix :
  JS.parseFloat (JStr "  -12.5e1xyz") = Dec true 125 0.
Proof. reflexivity. Qed.

Example isNaN_of_trailing_text : JS.isNaN (JStr "12abc") = true.
Proof. reflexivity. Qed.

Example isNaN_of_hex_text : JS.isNaN (JStr " 0x1F ") = false.
Proof. reflexivity. Qed.

Example tiny_negative_underflows : JS.lt0 (JS.parseFloat (JStr "-1e-400")) = false.
Proof. vm_compute. reflexivity. Qed.

Example least_subnormal_is_negative : JS.lt0 (JS.parseFloat (JStr "-5e-324")) = true.
Proof. vm_compute. reflexivity. Qed.

Example trim_both_ends : JS.trim "  a b  " = "a b".
Proof. reflexivity. Qed.

Lemma trim_nonblank s : JS.trim s ≠ "" → s ≠ "".
Proof. intros H ->. apply H. reflexivity. Qed.

Lemma eqb_false_of_neq (s t : string) : s ≠ t → String.eqb s t = false.
Proof. intros H. apply String.eqb_neq. exact H. Qed.

Lemma blank_text_false s : JS.trim s ≠ "" → blank (JStr s) = false.
Proof. intros H. simpl. apply eqb_false_of_neq, H. Qed.

Lemma trimmable_text s : trimmable (JStr s) = true.
Proof. reflexivity. Qed.

Lemma features_optional_text_ok x : features_rejected (optional_text x) = false.
Proof.
  destruct x as [s|]; unfold features_rejected; simpl; [|reflexivity].
  apply andb_false_r.
Qed.

(** ** The validator *)

Section Validation.

Context {World : Type}.
Variable Date_toISOString : World -> string * World.
Variable Error_captureStackTrace : World -> string.

Local Abbreviation validate :=
  (validateProductData Date_toISOString Error_captureStackTrace).
Local Abbreviation validation_error' :=
  (validation_error Date_toISOString Error_captureStackTrace).
Local Abbreviation after_clock' := (after_clock Date_toISOString).

Lemma new_ValidationError_run msg (st : state World) :
  new_ValidationError Date_toISOString Error_captureStackTrace msg None st
  = (Ret (validation_error' msg st), after_clock' st).
Proof.
  unfold new_ValidationError, new_APIError, bind, captureStackTrace,
    new_Date_toISOString, ret, validation_error, after_clock.
  simpl. destruct (Date_toISOString (world st)); reflexivity.
Qed.

Lemma missing_or_blank_run path v (st : state World) :
  trimmable v = true →
  missing_or_blank Error_captureStackTrace path v st = (Ret (blank v), st).
Proof.
  unfold trimmable, missing_or_blank.
  destruct v as [| |b|n|s|r]; simpl; try reflexivity.
  - destruct b; [discriminate | reflexivity].
  - destruct (negb (JS.is_nan n) && negb (JS.is_zero n)); simpl;
      [discriminate | reflexivity].
  - destruct s; reflexivity.
  - discriminate.
Qed.

Lemma missing_or_blank_cases path v (st : state World) :
  (∃ b, missing_or_blank Error_captureStackTrace path v st = (Ret b, st))
  ∨ (∃ e, missing_or_blank Error_captureStackTrace path v st = (Throw e, st)).
Proof.
  unfold missing_or_blank.
  destruct (negb (JS.truthy v)); [left; eexists; reflexivity|].
  destruct v; simpl; try (right; eexists; reflexivity).
  left; eexists; reflexivity.
Qed.

Lemma validate_run data (st : state World) :
  trimmable (name data) = true →
  trimmable (category data) = true →
  validate data st =
    match violations data with
    | [] => (Ret tt, st)
    | errs => (Throw (validation_error' (String.concat "; " errs) st),
               after_clock' st)
    end.
Proof.
  intros Hn Hc. unfold validateProductData, violations, bind.
  rewrite (missing_or_blank_run _ _ _ Hn), (missing_or_blank_run _ _ _ Hc).
  destruct (blank (name data)), (blank (category data)),
    (price_rejected (price data)), (features_rejected (features data));
    cbn [push app length Nat.ltb Nat.leb];
    try reflexivity;
    unfold bind; rewrite new_ValidationError_run; reflexivity.
Qed.

(** A record that passes leaves the state as it was. *)
Lemma validate_ok_state data (st st' : state World) :
  validate data st = (Ret tt, st') → st' = st.
Proof.
  unfold validateProductData, bind.
  destruct (missing_or_blank_cases "data.name" (name data) st)
    as [[b1 ->]|[e ->]]; [|discriminate].
  destruct (missing_or_blank_cases "data.category" (category data) st)
    as [[b2 ->]|[e ->]]; [|discriminate].
  destruct b1, b2, (price_rejected (price data)),
    (features_rejected (features data));
    cbn [push app length Nat.ltb Nat.leb];
    try (intros [= <-]; reflexivity);
    unfold bind; rewrite new_ValidationError_run; discriminate.
Qed.

Lemma validate_ok_fst data (st : state World) :
  (validate data st).1 = Ret tt → validate data st = (Ret tt, st).
Proof.
  destruct (validate data st) as [o st'] eqn:E. simpl. intros ->.
  apply validate_ok_state in E. subst. reflexivity.
Qed.

(** Validation sends nothing to the provider, whatever its outcome. *)
Lemma validate_sent data (st : state World) :
  sent (validate data st).2 = sent st.
Proof.
  unfold validateProductData, bind.
  destruct (missing_or_blank_cases "data.name" (name data) st)
    as [[b1 ->]|[e ->]]; [|reflexivity].
  destruct (missing_or_blank_cases "data.category" (category data) st)
    as [[b2 ->]|[e ->]]; [|reflexivity].
  destruct b1, b2, (price_rejected (price data)),
    (features_rejected (features data));
    cbn [push app length Nat.ltb Nat.leb];
    try reflexivity;
    unfold bind; rewrite new_ValidationError_run; reflexivity.
Qed.

Ltac solve_sublist :=
  repeat first
    [ apply sublist_nil_l | apply sublist_skip | apply sublist_cons ].

Ltac solve_listed :=
  simpl; split;
  [ intros Hin; first [ reflexivity | exfalso; intuition discriminate ]
  | intros Hb; first [ discriminate Hb | tauto ] ].




End Validation.

(** ** The content generator *)

Section Generation.

Context {World : Type}.
Variable Date_toISOString : World -> string * World.
Variable Error_captureStackTrace : World -> string.
Variable chat_completions_create : request -> World -> provider_result * World.
Variable OPENAI_MODEL : option string.
Variable Number_toString : jsnum -> string.

Local Abbreviation validate :=
  (validateProductData Date_toISOString Error_captureStackTrace).
Local Abbreviation generate :=
  (generateContent Date_toISOString Error_captureStackTrace
     chat_completions_create OPENAI_MODEL Number_toString).
Local Abbreviation generateAll :=
  (generateAllContent Date_toISOString Error_captureStackTrace
     chat_completions_create OPENAI_MODEL Number_toString).
Local Abbreviation request_for :=
  (completion_request OPENAI_MODEL Number_toString).
Local Abbreviation attempt' :=
  (attempt Date_toISOString Error_captureStackTrace
     chat_completions_create OPENAI_MODEL Number_toString).
Local Abbreviation turn' :=
  (turn Date_toISOString Error_captureStackTrace
     chat_completions_create OPENAI_MODEL Number_toString).
Local Abbreviation state_after' :=
  (state_after Date_toISOString Error_captureStackTrace
     chat_completions_create OPENAI_MODEL Number_toString).
Local Abbreviation provider_answer' :=
  (provider_answer Date_toISOString Error_captureStackTrace
     chat_completions_create OPENAI_MODEL Number_toString).
Local Abbreviation api_error' :=
  (api_error Date_toISOString Error_captureStackTrace).
Local Abbreviation after_clock' := (after_clock Date_toISOString).
Local Abbreviation sent_state' :=
  (sent_state chat_completions_create OPENAI_MODEL Number_toString).
Local Abbreviation generate_each' :=
  (generate_each Date_toISOString Error_captureStackTrace
     chat_completions_create OPENAI_MODEL Number_toString).

Lemma new_APIError_run c msg sc cd (st : state World) :
  new_APIError Date_toISOString Error_captureStackTrace c msg
    (Some sc) (Some cd) None st
  = (Ret (api_error' c msg sc cd st), after_clock' st).
Proof.
  unfold new_APIError, bind, captureStackTrace, new_Date_toISOString, ret,
    api_error, after_clock.
  simpl. destruct (Date_toISOString (world st)); reflexivity.
Qed.

(** [generateContent], case by case on what the provider answers. *)
Lemma generateContent_run ct d (st : state World) :
  generate ct d st =
    let st1 := sent_state' ct d st in
    let wrapped msg :=
      (Throw (api_error' ClsOpenAIError
                ("Failed to generate " +:+ key ct +:+ ": " +:+ msg)
                500 "OPENAI_ERROR" st1),
       after_clock' st1) in
    match (chat_completions_create (request_for ct d) (world st)).1 with
    | Resolved (Some content :: _) => (Ret (JS.trim content), st1)
    | Resolved (None :: _) =>
        wrapped "Cannot read properties of null (reading 'trim')"
    | Resolved [] =>
        wrapped "Cannot read properties of undefined (reading 'message')"
    | Rejected e =>
        if status_is e 429 then
          (Throw (api_error' ClsQuotaError
                    "API quota exceeded. Please check your plan and billing details."
                    429 "QUOTA_EXCEEDED" st1),
           after_clock' st1)
        else if status_is e 401 then
          (Throw (api_error' ClsOpenAIError "Invalid OpenAI API key"
                    401 "OPENAI_ERROR" st1),
           after_clock' st1)
        else wrapped (show_opt (message e))
    end.
Proof.
  unfold generateContent, try_catch, bind, await_create, sent_state.
  destruct (chat_completions_create (request_for ct d) (world st)) as [r w].
  cbn [fst snd].
  destruct r as [[|[content|] rest]|e]; cbn [first_content_trimmed lookup].
  - unfold new_TypeError, bind, captureStackTrace, ret, throw. cbn.
    unfold bind, new_Date_toISOString, ret, api_error, after_clock. cbn.
    destruct (Date_toISOString w); reflexivity.
  - reflexivity.
  - unfold new_TypeError, bind, captureStackTrace, ret, throw. cbn.
    unfold bind, new_Date_toISOString, ret, api_error, after_clock. cbn.
    destruct (Date_toISOString w); reflexivity.
  - destruct (status_is e 429); [|destruct (status_is e 401)];
      unfold bind, new_QuotaError, new_OpenAIError;
      rewrite new_APIError_run; reflexivity.
Qed.

Lemma status_is_true (e : jserror) n : status_is e n = true ↔ status e = Some n.
Proof.
  unfold status_is. destruct (status e) as [s|]; [|split; discriminate].
  rewrite Z.eqb_eq. split; [intros ->; reflexivity | intros [= ->]; reflexivity].
Qed.

Lemma status_is_false (e : jserror) n : status e ≠ Some n → status_is e n = false.
Proof.
  intros H. destruct (status_is e n) eqn:E; [|reflexivity].
  apply status_is_true in E. contradiction.
Qed.

(** Every call of [generateContent] sends exactly its request. *)
Lemma generateContent_sent ct d (st : state World) :
  sent (generate ct d st).2 = sent st ++ [request_for ct d].
Proof.
  rewrite generateContent_run. cbv zeta.
  destruct (chat_completions_create (request_for ct d) (world st)).1
    as [[|[content|] rest]|e]; try reflexivity.
  destruct (status_is e 429); [|destruct (status_is e 401)]; reflexivity.
Qed.

Lemma state_after_sent cts d (st : state World) :
  sent (state_after' cts d st)
  = sent st ++ map (λ ct, request_for ct d) cts.
Proof.
  revert st. induction cts as [|ct rest IH]; intros st; cbn [state_after map].
  - rewrite app_nil_r. reflexivity.
  - rewrite IH, generateContent_sent, <- app_assoc. reflexivity.
Qed.

Lemma generate_each_cons ct rest d results errs (st : state World) :
  generate_each' (ct :: rest) d results errs st =
    match generate ct d st with
    | (Ret text, st') =>
        generate_each' rest d (<[key ct := text]> results) errs st'
    | (Throw e, st') =>
        generate_each' rest d results
          (errs ++ [{| contentType := ct; error := message e |}]) st'
    end.
Proof.
  cbn [generate_each]. unfold bind, try_catch.
  destruct (generate ct d st) as [[text|e] st']; reflexivity.
Qed.

Lemma inserted_key (m : gmap string string) ct text k :
  is_Some (<[key ct := text]> m !! k) → k = key ct ∨ is_Some (m !! k).
Proof.
  destruct (decide (key ct = k)) as [<-|Hne]; [left; reflexivity|].
  rewrite lookup_insert_ne by exact Hne. right. assumption.
Qed.

Ltac keys_of_lookup H :=
  repeat (apply inserted_key in H as [->|H]; [eexists; reflexivity|]);
  rewrite lookup_empty in H; destruct H; discriminate.

(** The loop over the four content types, in terms of the four attempts. *)
Lemma generate_each_contentTypes d (st : state World) :
  ∃ results errs,
    generate_each' contentTypes d ∅ [] st
    = (Ret (results, errs), state_after' contentTypes d st)
    ∧ (∀ ct, results !! key ct = text_of (attempt' ct d st))
    ∧ (∀ k, is_Some (results !! k) → ∃ ct, k = key ct)
    ∧ errs = failure_of title (attempt' title d st)
             ++ failure_of bulletPoints (attempt' bulletPoints d st)
             ++ failure_of aContent (attempt' aContent d st)
             ++ failure_of adCopy (attempt' adCopy d st).
Proof.
  unfold contentTypes. cbn [state_after].
  assert (A1 : attempt' title d st = (generate title d st).1) by reflexivity.
  assert (A2 : attempt' bulletPoints d st
               = (generate bulletPoints d (generate title d st).2).1)
    by reflexivity.
  assert (A3 : attempt' aContent d st
               = (generate aContent d
                    (generate bulletPoints d (generate title d st).2).2).1)
    by reflexivity.
  assert (A4 : attempt' adCopy d st
               = (generate adCopy d
                    (generate aContent d
                       (generate bulletPoints d (generate title d st).2).2).2).1)
    by reflexivity.
  rewrite generate_each_cons.
  destruct (generate title d st) as [o1 st1]; cbn [fst snd] in *.
  destruct (generate bulletPoints d st1) as [o2 st2] eqn:E2; cbn [fst snd] in *.
  destruct (generate aContent d st2) as [o3 st3] eqn:E3; cbn [fst snd] in *.
  destruct (generate adCopy d st3) as [o4 st4] eqn:E4; cbn [fst snd] in *.
  destruct o1 as [t1|e1]; rewrite generate_each_cons, E2;
    destruct o2 as [t2|e2]; rewrite generate_each_cons, E3;
    destruct o3 as [t3|e3]; rewrite generate_each_cons, E4;
    destruct o4 as [t4|e4];
    cbn [generate_each];
    eexists _, _; (split; [reflexivity|]);
    (split; [intros ct; destruct ct; rewrite ?A1, ?A2, ?A3, ?A4;
             cbn [key text_of]; simplify_map_eq; reflexivity|]);
    (split; [intros k Hk; keys_of_lookup Hk
            | rewrite A1, A2, A3, A4; reflexivity]).
Qed.

(** [generateAllContent] on a record that passes validation. *)
Lemma generateAllContent_run d (st : state World) :
  (validate d st).1 = Ret tt →
  ∃ r,
    generateAll d st = (Ret r, after_clock' (state_after' contentTypes d st))
    ∧ productName r = name d
    ∧ (∀ ct, data r !! key ct = text_of (attempt' ct d st))
    ∧ (∀ k, is_Some (data r !! k) → ∃ ct, k = key ct)
    ∧ failures r = failure_of title (attempt' title d st)
                   ++ failure_of bulletPoints (attempt' bulletPoints d st)
                   ++ failure_of aContent (attempt' aContent d st)
                   ++ failure_of adCopy (attempt' adCopy d st)
    ∧ gen_status r
      = match failures r with [] => "success" | _ :: _ => "partial_success" end
    ∧ errors r = match failures r with [] => None | l => Some l end.
Proof.
  intros Hv. apply validate_ok_fst in Hv.
  unfold generateAllContent, try_catch, bind. rewrite Hv.
  destruct (generate_each_contentTypes d st)
    as (results & errs & -> & Hdata & Hkeys & Herrs).
  cbn [fst snd]. unfold new_Date_toISOString, after_clock, ret.
  destruct (Date_toISOString (world (state_after' contentTypes d st)))
    as [now w].
  eexists. split; [reflexivity|].
  unfold failures; cbn [productName data errors gen_status fst snd].
  rewrite <- Herrs.
  destruct errs; repeat split; assumption.
Qed.

(** A record that fails validation makes [generateAllContent] throw the
    validator's error, with nothing sent to the provider. *)
Lemma generateAllContent_invalid d e (st st' : state World) :
  validate d st = (Throw e, st') →
  generateAll d st = (Throw e, st').
Proof.
  intros Hv. unfold generateAllContent, try_catch, bind. rewrite Hv.
  reflexivity.
Qed.

Lemma attempt_of_rejection ct d e (st : state World) :
  provider_answer' ct d st = Rejected e →
  ∃ err, attempt' ct d st = Throw err
         ∧ message err = Some (rejection_message ct e)
         ∧ instanceof_APIError err = true.
Proof.
  unfold provider_answer, attempt. intros H.
  rewrite generateContent_run. cbv zeta. rewrite H.
  unfold rejection_message.
  destruct (status_is e 429); [|destruct (status_is e 401)];
    eexists; repeat split; reflexivity.
Qed.

Lemma failure_listed ct o1 o2 o3 o4 e :
  match ct with
  | title => o1 | bulletPoints => o2 | aContent => o3 | adCopy => o4
  end = Throw e →
  In {| contentType := ct; error := message e |}
     (failure_of title o1 ++ failure_of bulletPoints o2
      ++ failure_of aContent o3 ++ failure_of adCopy o4).
Proof.
  intros H. rewrite !in_app_iff.
  destruct ct; subst; simpl; tauto.
Qed.

Lemma attempt_pick ct d (st : state World) :
  match ct with
  | title => attempt' title d st
  | bulletPoints => attempt' bulletPoints d st
  | aContent => attempt' aContent d st
  | adCopy => attempt' adCopy d st
  end = attempt' ct d st.
Proof. destruct ct; reflexivity. Qed.

Ltac kind_in_text :=
  left; eexists; split;
  [ reflexivity
  | intros f Hf; simpl in Hf;
    repeat destruct Hf as [<-|Hf]; try discriminate; destruct Hf ].

Ltac kind_in_failure :=
  right; split; [ reflexivity | eexists; reflexivity ].

(** C2.  For every record that passes validation, [generateAllContent]
    returns a result in which each of the four content types is accounted
    for exactly once: either its key holds a text in [data] and no entry of
    [errors] carries it, or its key is absent from [data] and exactly one
    entry of [errors] carries it.  [data] has no other key. *)
Theorem generateAllContent_accounts_for_every_kind
    (productData : productData) (st : state World) :
  (validate productData st).1 = Ret tt →
  ∃ r st',
    generateAll productData st = (Ret r, st')
    ∧ (∀ ct,
         (∃ text, data r !! key ct = Some text
                  ∧ ∀ f, In f (failures r) → contentType f ≠ ct)
         ∨ (data r !! key ct = None
            ∧ ∃ msg, filter (λ f, contentType f = ct) (failures r)
                     = [{| contentType := ct; error := msg |}]))
    ∧ (∀ k, is_Some (data r !! k) → ∃ ct, k = key ct).
Proof.
  intros Hv.
  destruct (generateAllContent_run _ _ Hv)
    as (r & Hrun & _ & Hdata & Hkeys & Hfail & _).
  eexists r, _. split; [exact Hrun|]. split; [|exact Hkeys].
  intros ct. rewrite Hfail, Hdata, <- attempt_pick.
  destruct (attempt' title productData st),
    (attempt' bulletPoints productData st),
    (attempt' aContent productData st),
    (attempt' adCopy productData st), ct;
    cbn [text_of failure_of app];
    first [ kind_in_text | kind_in_failure ].
Qed.

(** C3.  For every record that passes validation, [generateAllContent]
    returns, having sent the four requests in the fixed order whatever each
    call came to.  A content type whose call throws is entered in [errors]
    under its own tag and left out of [data]; in particular a rejection by
    the provider is entered with the message of its classification.  A
    content type whose call returns has its text in [data].  When only the
    call for [adCopy] throws, [data] holds the three other texts, [errors]
    is the single entry tagged [adCopy], and the status is
    ["partial_success"]. *)
Theorem generation_failures_are_isolated
    (productData : productData) (st : state World) :
  (validate productData st).1 = Ret tt →
  ∃ r st',
    generateAll productData st = (Ret r, st')
    ∧ sent st' = sent st ++ map (λ ct, request_for ct productData) contentTypes
    ∧ (∀ ct e, attempt' ct productData st = Throw e →
         In {| contentType := ct; error := message e |} (failures r)
         ∧ data r !! key ct = None)
    ∧ (∀ ct e, provider_answer' ct productData st = Rejected e →
         In {| contentType := ct; error := Some (rejection_message ct e) |}
            (failures r)
         ∧ data r !! key ct = None)
    ∧ (∀ ct text, attempt' ct productData st = Ret text →
         data r !! key ct = Some text)
    ∧ (∀ t1 t2 t3 e,
         attempt' title productData st = Ret t1 →
         attempt' bulletPoints productData st = Ret t2 →
         attempt' aContent productData st = Ret t3 →
         attempt' adCopy productData st = Throw e →
         data r !! "title" = Some t1
         ∧ data r !! "bulletPoints" = Some t2
         ∧ data r !! "aContent" = Some t3
         ∧ data r !! "adCopy" = None
         ∧ failures r = [{| contentType := adCopy; error := message e |}]
         ∧ gen_status r = "partial_success").
Proof.
  intros Hv.
  destruct (generateAllContent_run _ _ Hv)
    as (r & Hrun & _ & Hdata & Hkeys & Hfail & Hstatus & _).
  assert (Hthrow : ∀ ct e, attempt' ct productData st = Throw e →
            In {| contentType := ct; error := message e |} (failures r)
            ∧ data r !! key ct = None).
  { intros ct e He. split.
    - rewrite Hfail. apply failure_listed. rewrite attempt_pick. exact He.
    - rewrite Hdata, He. reflexivity. }
  eexists r, _. split; [exact Hrun|].
  split; [apply (state_after_sent contentTypes)|].
  split; [exact Hthrow|].
  split.
  { intros ct e He.
    destruct (attempt_of_rejection _ _ _ _ He) as (err & Herr & Hmsg & _).
    rewrite <- Hmsg. apply Hthrow, Herr. }
  split.
  { intros ct text Ht. rewrite Hdata, Ht. reflexivity. }
  intros t1 t2 t3 e H1 H2 H3 H4.
  pose proof (Hdata title) as D1. pose proof (Hdata bulletPoints) as D2.
  pose proof (Hdata aContent) as D3. pose proof (Hdata adCopy) as D4.
  cbn [key] in D1, D2, D3, D4.
  rewrite Hstatus, Hfail, D1, D2, D3, D4, H1, H2, H3, H4.
  repeat split.
Qed.

(** C4.  For every record that passes validation, [generateAllContent]
    returns and the status of its result is ["success"] exactly when there
    is no per-kind failure and ["partial_success"] exactly when there is
    one; [errors] is [undefined] in the first case only.  When all four
    calls throw, the result still comes back: its status is
    ["partial_success"], it lists four failures, one per content type in the
    fixed order, and [data] is empty. *)
Theorem status_reflects_failures
    (productData : productData) (st : state World) :
  (validate productData st).1 = Ret tt →
  ∃ r st',
    generateAll productData st = (Ret r, st')
    ∧ (gen_status r = "success" ↔ failures r = [])
    ∧ (gen_status r = "partial_success" ↔ failures r ≠ [])
    ∧ (errors r = None ↔ failures r = [])
    ∧ ((∀ ct, threw (attempt' ct productData st) = true) →
         gen_status r = "partial_success"
         ∧ length (failures r) = 4%nat
         ∧ map contentType (failures r) = contentTypes
         ∧ data r = ∅).
Proof.
  intros Hv.
  destruct (generateAllContent_run _ _ Hv)
    as (r & Hrun & _ & Hdata & Hkeys & Hfail & Hstatus & Herrors).
  eexists r, _. split; [exact Hrun|].
  rewrite Hstatus, Herrors.
  split; [|split; [|split]].
  - destruct (failures r); split; (reflexivity || discriminate).
  - destruct (failures r) as [|f l].
    + split; [discriminate | intros H; destruct H; reflexivity].
    + split; [intros _; discriminate | reflexivity].
  - destruct (failures r); split; (reflexivity || discriminate).
  - intros Hall.
    assert (Hempty : data r = ∅).
    { apply map_eq. intros k. rewrite lookup_empty.
      destruct (data r !! k) as [v|] eqn:Ek; [|reflexivity].
      destruct (Hkeys k) as [ct ->]; [eexists; exact Ek|].
      rewrite Hdata in Ek. specialize (Hall ct).
      destruct (attempt' ct productData st); discriminate. }
    rewrite Hfail.
    pose proof (Hall title) as H1. pose proof (Hall bulletPoints) as H2.
    pose proof (Hall aContent) as H3. pose proof (Hall adCopy) as H4.
    destruct (attempt' title productData st); [discriminate|].
    destruct (attempt' bulletPoints productData st); [discriminate|].
    destruct (attempt' aContent productData st); [discriminate|].
    destruct (attempt' adCopy productData st); [discriminate|].
    repeat split. exact Hempty.
Qed.

(** C5 (as the code has it).  For every record that passes validation, when
    the provider rejects the request for a content type with status 401,
    [generateAllContent] does not throw: it still sends all four requests
    and returns a result with status ["partial_success"], in which that
    content type is absent from [data] and entered in [errors] with the
    message ["Invalid OpenAI API key"]. *)
Theorem auth_rejection_is_recorded_per_kind
    (productData : productData) (st : state World)
    (ct : content_type) (e : jserror) :
  (validate productData st).1 = Ret tt →
  provider_answer' ct productData st = Rejected e →
  status e = Some 401 →
  ∃ r st',
    generateAll productData st = (Ret r, st')
    ∧ sent st' = sent st ++ map (λ ct, request_for ct productData) contentTypes
    ∧ gen_status r = "partial_success"
    ∧ In {| contentType := ct; error := Some "Invalid OpenAI API key" |}
         (failures r)
    ∧ data r !! key ct = None.
Proof.
  intros Hv Hrej H401.
  destruct (generateAllContent_run _ _ Hv)
    as (r & Hrun & _ & Hdata & Hkeys & Hfail & Hstatus & _).
  destruct (attempt_of_rejection _ _ _ _ Hrej) as (err & Herr & Hmsg & _).
  assert (Hm : rejection_message ct e = "Invalid OpenAI API key").
  { unfold rejection_message.
    rewrite (status_is_false e 429) by (rewrite H401; discriminate).
    rewrite (proj2 (status_is_true e 401) H401). reflexivity. }
  rewrite Hm in Hmsg.
  assert (Hin : In {| contentType := ct; error := Some "Invalid OpenAI API key" |}
                   (failures r)).
  { rewrite Hfail, <- Hmsg. apply failure_listed.
    rewrite attempt_pick. exact Herr. }
  eexists r, _. split; [exact Hrun|].
  split; [apply (state_after_sent contentTypes)|].
  split; [|split; [exact Hin|]].
  - rewrite Hstatus. destruct (failures r); [destruct Hin | reflexivity].
  - rewrite Hdata, Herr. reflexivity.
Qed.


End Generation.

(** ** The row loop *)

Section Batch.

Context {World : Type}.
Variable Date_toISOString : World -> string * World.
Variable Error_captureStackTrace : World -> string.
Variable chat_completions_create : request -> World -> provider_result * World.
Variable OPENAI_MODEL : option string.
Variable Number_toString : jsnum -> string.

Local Abbreviation validate :=
  (validateProductData Date_toISOString Error_captureStackTrace).
Local Abbreviation generateAll :=
  (generateAllContent Date_toISOString Error_captureStackTrace
     chat_completions_create OPENAI_MODEL Number_toString).
Local Abbreviation process_rows' :=
  (process_rows Date_toISOString Error_captureStackTrace
     chat_completions_create OPENAI_MODEL Number_toString).
Local Abbreviation batch :=
  (processBatch Date_toISOString Error_captureStackTrace
     chat_completions_create OPENAI_MODEL Number_toString).

Lemma cell_trimmable row i : trimmable (cell row i) = true.
Proof. unfold cell. destruct (row !! i); reflexivity. Qed.

(** On a row, validation depends on the cells only. *)
Lemma validate_row row (st : state World) :
  validate (product_of_row row) st =
    match violations (product_of_row row) with
    | [] => (Ret tt, st)
    | errs =>
        (Throw (validation_error Date_toISOString Error_captureStackTrace
                  (String.concat "; " errs) st),
         after_clock Date_toISOString st)
    end.
Proof. apply validate_run; apply cell_trimmable. Qed.

Lemma process_rows_cons row rest acc (st : state World) :
  process_rows' (row :: rest) acc st =
    match generateAll (product_of_row row) st with
    | (Ret result, st') => process_rows' rest (acc ++ [result]) st'
    | (Throw e, st') => (Throw e, st')
    end.
Proof. reflexivity. Qed.

Lemma process_rows_passing rows : ∀ acc (st : state World),
  Forall (λ row, violations (product_of_row row) = []) rows →
  ∃ rs st',
    process_rows' rows acc st = (Ret (acc ++ rs), st')
    ∧ length rs = length rows
    ∧ map productName rs = map (λ row, cell row 1) rows
    ∧ Forall2 (λ row r, ∃ s s', generateAll (product_of_row row) s = (Ret r, s'))
        rows rs
    ∧ ∀ more, process_rows' (rows ++ more) acc st
              = process_rows' more (acc ++ rs) st'.
Proof.
  induction rows as [|row rest IH]; intros acc st Hall.
  - exists [], st. rewrite app_nil_r. repeat split. constructor.
  - inversion Hall as [|? ? Hrow Hrest]; subst.
    assert (Hv : (validate (product_of_row row) st).1 = Ret tt)
      by (rewrite validate_row, Hrow; reflexivity).
    destruct (generateAllContent_run Date_toISOString Error_captureStackTrace
                chat_completions_create OPENAI_MODEL Number_toString _ _ Hv)
      as (r & Hrun & Hname & _).
    match type of Hrun with
    | _ = (_, ?s1) =>
        destruct (IH (acc ++ [r]) s1 Hrest)
          as (rs & st' & Hrs & Hlen & Hnames & Hall2 & Hmore)
    end.
    exists (r :: rs), st'.
    rewrite process_rows_cons, Hrun, Hrs, <- app_assoc.
    split; [reflexivity|].
    split; [cbn; rewrite Hlen; reflexivity|].
    split; [cbn [map]; rewrite Hname, Hnames; reflexivity|].
    split; [constructor; [eexists _, _; exact Hrun | exact Hall2]|].
    intros more. cbn [app]. rewrite process_rows_cons, Hrun, Hmore, <- app_assoc.
    reflexivity.
Qed.

(** C1 (as the code has it).  When every data row passes validation, the row
    loop skips the header and returns one result per data row, in row order:
    result [i] is what [generateAllContent] returned for data row [i] and
    carries that row's name cell.  A row that fails validation is not
    recorded as a failed entry: once the rows before it are processed, its
    [ValidationError] leaves the loop, no result list is returned, and the
    rows after it are never looked at. *)
Theorem processBatch_valid_rows_in_order
    (header : list string) (rows : list (list string)) (st : state World) :
  Forall (λ row, ∀ s, (validate (product_of_row row) s).1 = Ret tt) rows →
  ∃ results st',
    batch (header :: rows) st = (Ret results, st')
    ∧ length results = length rows
    ∧ map productName results = map (λ row, cell row 1) rows
    ∧ Forall2 (λ row r, ∃ s s', generateAll (product_of_row row) s = (Ret r, s'))
        rows results
    ∧ ∀ bad rest,
        (validate (product_of_row bad) st').1 ≠ Ret tt →
        ∃ e st'',
          batch (header :: rows ++ bad :: rest) st = (Throw e, st'')
          ∧ validate (product_of_row bad) st' = (Throw e, st'')
          ∧ cls e = ClsValidationError
          ∧ sent st'' = sent st'.
Proof.
  intros Hall.
  assert (Hall' : Forall (λ row, violations (product_of_row row) = []) rows).
  { eapply Forall_impl; [exact Hall|]. intros row Hrow.
    specialize (Hrow st). rewrite validate_row in Hrow.
    destruct (violations (product_of_row row)); [reflexivity | discriminate]. }
  destruct (process_rows_passing rows [] st Hall')
    as (rs & st' & Hrs & Hlen & Hnames & Hall2 & Hmore).
  exists rs, st'. unfold processBatch. cbn [drop]. rewrite drop_0.
  split; [exact Hrs|]. split; [exact Hlen|]. split; [exact Hnames|].
  split; [exact Hall2|].
  intros bad rest Hbad.
  assert (Hthrow : validate (product_of_row bad) st'
                   = (Throw (validation_error Date_toISOString
                               Error_captureStackTrace
                               (String.concat "; "
                                  (violations (product_of_row bad))) st'),
                      after_clock Date_toISOString st')).
  { rewrite validate_row in Hbad |- *.
    destruct (violations (product_of_row bad));
      [contradiction Hbad; reflexivity | reflexivity]. }
  unfold processBatch. cbn [drop]. rewrite drop_0.
  rewrite Hmore, process_rows_cons.
  rewrite (generateAllContent_invalid _ _ _ _ _ _ _ _ _ Hthrow).
  eexists _, _. split; [reflexivity|]. split; [exact Hthrow|].
  split; reflexivity.
Qed.

End Batch.

(** ** The response formatter *)

Section Formatting.

Context {World : Type}.
Variable Date_toISOString : World -> string * World.
Variable Error_captureStackTrace : World -> string.

Local Abbreviation format := (@formatErrorResponse World Date_toISOString).
Local Abbreviation handler := (@errorHandler World Date_toISOString).
Local Abbreviation new_QuotaError' :=
  (new_QuotaError Date_toISOString Error_captureStackTrace).

Lemma formatErrorResponse_APIError e (st : state World) :
  instanceof_APIError e = true →
  format e st
  = (Ret {| resp_error := message e;
            resp_code := code e;
            resp_field := nonempty (field e);
            resp_timestamp := timestamp e |}, st).
Proof. intros H. unfold formatErrorResponse. rewrite H. reflexivity. Qed.

(** C7.  A [QuotaError], formatted, carries the code ["QUOTA_EXCEEDED"], and
    [errorHandler] answers it with status 429.  An error that is not an
    [APIError] and whose [status] is none of 429, 401 or 500 and above is
    formatted with the code ["UNKNOWN_ERROR"] and its own message, or the
    fixed fallback when the message is absent or empty.  The formatted
    body, and the status and body [errorHandler] sends, never depend on the
    stack trace of the error. *)
Theorem formatErrorResponse_codes :
  (∀ msg (st : state World),
     ∃ q st1,
       new_QuotaError' msg st = (Ret q, st1)
       ∧ ∀ st2, ∃ resp,
           format q st2 = (Ret resp, st2)
           ∧ resp_code resp = Some "QUOTA_EXCEEDED"
           ∧ handler q st2 = (Ret (429, resp), st2))
  ∧ (∀ e (st : state World),
       instanceof_APIError e = false →
       status e ≠ Some 429 →
       status e ≠ Some 401 →
       (∀ s, status e = Some s → s < 500) →
       ∃ resp st',
         format e st = (Ret resp, st')
         ∧ resp_code resp = Some "UNKNOWN_ERROR"
         ∧ resp_field resp = None
         ∧ resp_error resp
           = Some match message e with
                  | Some m =>
                      if String.eqb m "" then "An unexpected error occurred"
                      else m
                  | None => "An unexpected error occurred"
                  end)
  ∧ (∀ e s (st : state World),
       format (with_stack e s) st = format e st
       ∧ handler (with_stack e s) st = handler e st).
Proof.
  split; [|split].
  - intros msg st. unfold new_QuotaError. rewrite new_APIError_run.
    eexists _, _. split; [reflexivity|]. intros st2.
    eexists. split; [reflexivity|]. split; reflexivity.
  - intros e st Hcls H429 H401 Hlt.
    unfold formatErrorResponse. rewrite Hcls.
    rewrite (status_is_false e 429 H429), (status_is_false e 401 H401).
    assert (Hge : status_ge e 500 = false).
    { unfold status_ge. destruct (status e) as [s|] eqn:Es; [|reflexivity].
      apply Z.leb_gt. apply Hlt. reflexivity. }
    rewrite Hge. unfold bind, new_Date_toISOString, ret.
    destruct (Date_toISOString (world st)) as [ts w].
    eexists _, _. split; [reflexivity|].
    unfold or_default, nonempty. cbn.
    destruct (message e) as [m|]; [destruct (String.eqb m "")|]; repeat split.
  - intros e s st. split; reflexivity.
Qed.

End Formatting.
(* ===================================================================== *)
(** * Further properties of the code *)
(* ===================================================================== *)

(** ** Request parameters and error responses *)

Section ErrorHandling.

Context {World : Type}.
Variable Date_toISOString : World -> string * World.
Variable Error_captureStackTrace : World -> string.

Local Abbreviation validate :=
  (validateProductData Date_toISOString Error_captureStackTrace).
Local Abbreviation validateParams :=
  (validateSpreadsheetParams Date_toISOString Error_captureStackTrace).
Local Abbreviation handle := (@errorHandler World Date_toISOString).
Local Abbreviation format' := (@formatErrorResponse World Date_toISOString).
Local Abbreviation after_clock' := (after_clock Date_toISOString).
Local Abbreviation trim_type_error' := (trim_type_error Error_captureStackTrace).

(** The error [new ValidationError(msg, fld)] builds in state [st]. *)
Lemma new_ValidationError_field_run msg fld (st : state World) :
  ∃ e,
    new_ValidationError Date_toISOString Error_captureStackTrace msg fld st
    = (Ret e, after_clock' st)
    ∧ cls e = ClsValidationError
    ∧ message e = Some msg
    ∧ statusCode e = Some 400
    ∧ code e = Some "VALIDATION_ERROR"
    ∧ field e = fld
    ∧ timestamp e = Some (Date_toISOString (world st)).1.
Proof.
  unfold new_ValidationError, new_APIError, bind, captureStackTrace,
    new_Date_toISOString, ret, after_clock.
  simpl. destruct (Date_toISOString (world st)); simpl.
  eexists; repeat split.
Qed.

(** [!v || v.trim() === ''] on any value. *)
Lemma missing_or_blank_total path v (st : state World) :
  missing_or_blank Error_captureStackTrace path v st
  = if trimmable v then (Ret (blank v), st)
    else (Throw (trim_type_error' path st), st).
Proof.
  destruct (trimmable v) eqn:E; [apply missing_or_blank_run, E|].
  unfold trimmable in E. unfold missing_or_blank.
  destruct v as [| |b|n|s|r]; simpl in E; try discriminate.
  - destruct b; [reflexivity | discriminate].
  - simpl. destruct (negb (JS.is_nan n) && negb (JS.is_zero n));
      [reflexivity | discriminate].
  - reflexivity.
Qed.

(** X1.  [validateSpreadsheetParams] reports the first blank parameter only,
    in the order [spreadsheetId], [inputRange], [outputRange]: it throws one
    [ValidationError] tagged with that parameter's name, whatever the later
    parameters are, and returns with the state untouched when none of the
    three is blank. *)
Theorem validateSpreadsheetParams_first_blank
    (params : spreadsheetParams) (st : state World) :
  trimmable (spreadsheetId params) = true →
  trimmable (inputRange params) = true →
  trimmable (outputRange params) = true →
  let first_blank :=
    if blank (spreadsheetId params)
    then Some ("spreadsheetId", "Spreadsheet ID is required")
    else if blank (inputRange params)
    then Some ("inputRange", "Input range is required")
    else if blank (outputRange params)
    then Some ("outputRange", "Output range is required")
    else None in
  match first_blank with
  | None => validateParams params st = (Ret tt, st)
  | Some (fld, msg) =>
      ∃ e st',
        validateParams params st = (Throw e, st')
        ∧ cls e = ClsValidationError
        ∧ statusCode e = Some 400
        ∧ field e = Some fld
        ∧ message e = Some msg
        ∧ sent st' = sent st
  end.
Proof.
  intros H1 H2 H3. unfold validateSpreadsheetParams, bind. cbv zeta.
  rewrite (missing_or_blank_run _ _ _ _ H1).
  destruct (blank (spreadsheetId params)).
  { destruct (new_ValidationError_field_run "Spreadsheet ID is required"
                (Some "spreadsheetId") st) as (e & -> & ? & ? & ? & ? & ? & ?).
    eexists _, _; repeat split; eassumption. }
  rewrite (missing_or_blank_run _ _ _ _ H2).
  destruct (blank (inputRange params)).
  { destruct (new_ValidationError_field_run "Input range is required"
                (Some "inputRange") st) as (e & -> & ? & ? & ? & ? & ? & ?).
    eexists _, _; repeat split; eassumption. }
  rewrite (missing_or_blank_run _ _ _ _ H3).
  destruct (blank (outputRange params)).
  { destruct (new_ValidationError_field_run "Output range is required"
                (Some "outputRange") st) as (e & -> & ? & ? & ? & ? & ? & ?).
    eexists _, _; repeat split; eassumption. }
  reflexivity.
Qed.

(** What [validateSpreadsheetParams] can throw. *)
Lemma validateSpreadsheetParams_throws params e (st st' : state World) :
  validateParams params st = (Throw e, st') →
  sent st' = sent st
  ∧ ((cls e = ClsValidationError
      ∧ statusCode e = Some 400
      ∧ code e = Some "VALIDATION_ERROR"
      ∧ ∃ fld, field e = Some fld
               ∧ In fld ["spreadsheetId"; "inputRange"; "outputRange"])
     ∨ (∃ path, e = trim_type_error' path st ∧ st' = st)).
Proof.
  unfold validateSpreadsheetParams, bind.
  rewrite missing_or_blank_total.
  destruct (trimmable (spreadsheetId params));
    [|intros [= <- <-]; split; [reflexivity | right; eexists; split; reflexivity]].
  destruct (blank (spreadsheetId params)).
  { destruct (new_ValidationError_field_run "Spreadsheet ID is required"
                (Some "spreadsheetId") st) as (e0 & -> & ? & ? & ? & ? & ? & ?).
    intros [= <- <-]. split; [reflexivity|]. left.
    repeat split; try assumption. eexists; split; [eassumption | simpl; tauto]. }
  rewrite missing_or_blank_total.
  destruct (trimmable (inputRange params));
    [|intros [= <- <-]; split; [reflexivity | right; eexists; split; reflexivity]].
  destruct (blank (inputRange params)).
  { destruct (new_ValidationError_field_run "Input range is required"
                (Some "inputRange") st) as (e0 & -> & ? & ? & ? & ? & ? & ?).
    intros [= <- <-]. split; [reflexivity|]. left.
    repeat split; try assumption. eexists; split; [eassumption | simpl; tauto]. }
  rewrite missing_or_blank_total.
  destruct (trimmable (outputRange params));
    [|intros [= <- <-]; split; [reflexivity | right; eexists; split; reflexivity]].
  destruct (blank (outputRange params)).
  { destruct (new_ValidationError_field_run "Output range is required"
                (Some "outputRange") st) as (e0 & -> & ? & ? & ? & ? & ? & ?).
    intros [= <- <-]. split; [reflexivity|]. left.
    repeat split; try assumption. eexists; split; [eassumption | simpl; tauto]. }
  discriminate.
Qed.

(** What [validateProductData] can throw. *)
Lemma validateProductData_throws data e (st st' : state World) :
  validate data st = (Throw e, st') →
  sent st' = sent st
  ∧ ((cls e = ClsValidationError
      ∧ statusCode e = Some 400
      ∧ code e = Some "VALIDATION_ERROR"
      ∧ field e = None
      ∧ message e = Some (String.concat "; " (violations data))
      ∧ violations data ≠ [])
     ∨ (∃ path, e = trim_type_error' path st ∧ st' = st
                ∧ (trimmable (name data) = false
                   ∨ trimmable (category data) = false))).
Proof.
  destruct (trimmable (name data)) eqn:Hn.
  - destruct (trimmable (category data)) eqn:Hc.
    + rewrite (validate_run _ _ _ _ Hn Hc).
      destruct (violations data) as [|m errs] eqn:Ev; [discriminate|].
      intros [= <- <-]. split; [reflexivity|]. left.
      repeat split. discriminate.
    + unfold validateProductData, bind.
      rewrite missing_or_blank_total, Hn.
      rewrite missing_or_blank_total, Hc.
      intros [= <- <-]. split; [reflexivity|]. right.
      eexists. repeat split. right; reflexivity.
  - unfold validateProductData, bind.
    rewrite missing_or_blank_total, Hn.
    intros [= <- <-]. split; [reflexivity|]. right.
    eexists. repeat split. left; reflexivity.
Qed.

(** What [errorHandler] answers to an [APIError]: the clock is not read. *)
Lemma errorHandler_APIError e (st : state World) :
  instanceof_APIError e = true →
  handle e st
  = (Ret (match statusCode e with
          | Some s => if s =? 0 then 500 else s
          | None => 500
          end,
          {| resp_error := message e;
             resp_code := code e;
             resp_field := nonempty (field e);
             resp_timestamp := timestamp e |}), st).
Proof.
  intros H. unfold errorHandler, bind, formatErrorResponse. rewrite H.
  reflexivity.
Qed.

(** What [errorHandler] answers to any other error. *)
Lemma errorHandler_foreign e (st : state World) :
  instanceof_APIError e = false →
  ∃ text,
    handle e st
    = (Ret (match statusCode e with
            | Some s => if s =? 0 then 500 else s
            | None => 500
            end,
            {| resp_error := Some text;
               resp_code := Some (foreign_code e);
               resp_field := None;
               resp_timestamp := Some (Date_toISOString (world st)).1 |}),
       after_clock' st)
    ∧ (foreign_code e = "UNKNOWN_ERROR" →
       text = or_default (message e) "An unexpected error occurred")
    ∧ (foreign_code e ≠ "UNKNOWN_ERROR" →
       text = "API quota exceeded. Please check your plan and billing details."
       ∨ text = "Invalid API credentials. Please check your authentication."
       ∨ text = "External API error. Please try again later.").
Proof using Date_toISOString.
  intros H.
  unfold errorHandler, formatErrorResponse, foreign_code, status_is,
    status_ge, new_Date_toISOString, after_clock.
  rewrite H.
  destruct (status e) as [s|].
  - destruct (s =? 429); [|destruct (s =? 401); [|destruct (500 <=? s)]];
      unfold bind, ret; destruct (Date_toISOString (world st)) as [now w]; cbn;
      eexists; (split; [reflexivity|]); split; intros Hc;
      try discriminate Hc; try reflexivity;
      try (contradiction Hc; reflexivity);
      first [ left; reflexivity
            | right; left; reflexivity
            | right; right; reflexivity ].
  - unfold bind, ret. destruct (Date_toISOString (world st)) as [now w]; cbn.
    eexists; (split; [reflexivity|]); split; intros Hc;
      [reflexivity | contradiction].
Qed.

(** X2.  Whether the body of an error response carries a [field] tells the
    two validators apart: a [ValidationError] of [validateSpreadsheetParams]
    is answered with status 400 and a [field] naming one of the three
    parameters, while no error thrown by [validateProductData] is ever
    answered with a [field]. *)
Theorem field_tag_tells_validators_apart :
  (∀ params e (st st' st2 : state World),
     validateParams params st = (Throw e, st') →
     cls e = ClsValidationError →
     ∃ payload fld,
       handle e st2 = (Ret (400, payload), st2)
       ∧ resp_code payload = Some "VALIDATION_ERROR"
       ∧ resp_field payload = Some fld
       ∧ In fld ["spreadsheetId"; "inputRange"; "outputRange"])
  ∧ (∀ data e (st st' st2 : state World),
       validate data st = (Throw e, st') →
       ∃ sc payload st3,
         handle e st2 = (Ret (sc, payload), st3)
         ∧ resp_field payload = None).
Proof.
  split.
  - intros params e st st' st2 Hthrow Hcls.
    destruct (validateSpreadsheetParams_throws _ _ _ _ Hthrow)
      as [_ [(_ & Hsc & Hcode & fld & Hfld & Hin)|(path & -> & _)]];
      [|discriminate].
    rewrite errorHandler_APIError
      by (unfold instanceof_APIError; rewrite Hcls; reflexivity).
    rewrite Hsc, Hcode, Hfld. eexists _, fld.
    split; [reflexivity|]. split; [reflexivity|]. split; [|exact Hin].
    simpl. destruct Hin as [<-|[<-|[<-|[]]]]; reflexivity.
  - intros data e st st' st2 Hthrow.
    destruct (validateProductData_throws _ _ _ _ Hthrow)
      as [_ [(Hcls & _ & _ & Hfld & _)|(path & -> & _)]].
    + rewrite errorHandler_APIError
        by (unfold instanceof_APIError; rewrite Hcls; reflexivity).
      eexists _, _, _. split; [reflexivity|]. simpl. rewrite Hfld. reflexivity.
    + destruct (errorHandler_foreign (trim_type_error' path st) st2 eq_refl)
        as (text & -> & _).
      eexists _, _, _. split; reflexivity.
Qed.

(** X3.  An error built by one of the four constructors and handed to
    [errorHandler] is answered with the status code of its class
    (400 for [ValidationError], 429 for [QuotaError], the given code or 500
    for [GoogleSheetsError] and [OpenAIError]), the code string of its class,
    the message it was built with and the time it was built at; answering
    does not read the clock again. *)
Theorem constructed_errors_round_trip (st st2 : state World) :
  let built := (Date_toISOString (world st)).1 in
  (∀ msg fld, ∃ e st1,
      new_ValidationError Date_toISOString Error_captureStackTrace msg fld st
      = (Ret e, st1)
      ∧ handle e st2
        = (Ret (400, {| resp_error := Some msg;
                        resp_code := Some "VALIDATION_ERROR";
                        resp_field := nonempty fld;
                        resp_timestamp := Some built |}), st2))
  ∧ (∀ msg, ∃ e st1,
      new_QuotaError Date_toISOString Error_captureStackTrace msg st
      = (Ret e, st1)
      ∧ handle e st2
        = (Ret (429,
                {| resp_error :=
                     Some (default
                             "API quota exceeded. Please check your plan and billing details."
                             msg);
                   resp_code := Some "QUOTA_EXCEEDED";
                   resp_field := None;
                   resp_timestamp := Some built |}), st2))
  ∧ (∀ msg sc, sc ≠ Some 0 → ∃ e st1,
      new_GoogleSheetsError Date_toISOString Error_captureStackTrace msg sc st
      = (Ret e, st1)
      ∧ handle e st2
        = (Ret (default 500 sc,
                {| resp_error := Some msg;
                   resp_code := Some "GOOGLE_SHEETS_ERROR";
                   resp_field := None;
                   resp_timestamp := Some built |}), st2))
  ∧ (∀ msg sc, sc ≠ Some 0 → ∃ e st1,
      new_OpenAIError Date_toISOString Error_captureStackTrace msg sc st
      = (Ret e, st1)
      ∧ handle e st2
        = (Ret (default 500 sc,
                {| resp_error := Some msg;
                   resp_code := Some "OPENAI_ERROR";
                   resp_field := None;
                   resp_timestamp := Some built |}), st2)).
Proof.
  cbv zeta.
  assert (Hsc : ∀ sc, sc ≠ Some 0 →
            (if default 500 sc =? 0 then 500 else default 500 sc)
            = default 500 sc).
  { intros [s|] Hs; simpl; [|reflexivity].
    destruct (Z.eqb_spec s 0) as [->|]; [contradiction Hs|]; reflexivity. }
  repeat split.
  - intros msg fld.
    unfold new_ValidationError, new_APIError, bind, captureStackTrace,
      new_Date_toISOString, ret. simpl.
    destruct (Date_toISOString (world st)) as [now w]. simpl.
    eexists _, _. split; [reflexivity|].
    rewrite errorHandler_APIError by reflexivity. reflexivity.
  - intros msg. unfold new_QuotaError. rewrite new_APIError_run.
    eexists _, _. split; [reflexivity|].
    rewrite errorHandler_APIError by reflexivity. reflexivity.
  - intros msg sc Hs. unfold new_GoogleSheetsError. rewrite new_APIError_run.
    eexists _, _. split; [reflexivity|].
    rewrite errorHandler_APIError by reflexivity. simpl.
    rewrite (Hsc sc Hs). reflexivity.
  - intros msg sc Hs. unfold new_OpenAIError. rewrite new_APIError_run.
    eexists _, _. split; [reflexivity|].
    rewrite errorHandler_APIError by reflexivity. simpl.
    rewrite (Hsc sc Hs). reflexivity.
Qed.

(** X4.  An error that is not an [APIError] and has no [statusCode] of its
    own is always answered with HTTP status 500, also when the [status] it
    reports makes the body say ["QUOTA_EXCEEDED"] (429) or ["AUTH_ERROR"]
    (401); for those and for a [status] of 500 and above the body carries a
    fixed text instead of the error's message. *)
Theorem foreign_errors_answered_with_500 (e : jserror) (st : state World) :
  instanceof_APIError e = false →
  statusCode e = None →
  ∃ payload st',
    handle e st = (Ret (500, payload), st')
    ∧ resp_field payload = None
    ∧ resp_code payload
      = Some match status e with
             | Some s =>
                 if s =? 429 then "QUOTA_EXCEEDED"
                 else if s =? 401 then "AUTH_ERROR"
                 else if 500 <=? s then "EXTERNAL_ERROR"
                 else "UNKNOWN_ERROR"
             | None => "UNKNOWN_ERROR"
             end
    ∧ (∀ e', instanceof_APIError e' = false →
             statusCode e' = None →
             status e' = status e →
             resp_code payload ≠ Some "UNKNOWN_ERROR" →
             handle e' st = handle e st).
Proof.
  intros Hcls Hsc.
  destruct (errorHandler_foreign e st Hcls) as (text & Hrun & Hun & Hfix).
  rewrite Hsc in Hrun. eexists _, _. split; [exact Hrun|].
  split; [reflexivity|]. split; [reflexivity|].
  intros e' Hcls' Hsc' Hst Hcode. simpl in Hcode.
  unfold errorHandler, formatErrorResponse, status_is, status_ge.
  rewrite Hcls, Hcls', Hsc, Hsc', Hst.
  unfold foreign_code in Hcode.
  destruct (status e) as [s|]; [|contradiction Hcode; reflexivity].
  destruct (s =? 429); [reflexivity|].
  destruct (s =? 401); [reflexivity|].
  destruct (500 <=? s); [reflexivity|].
  contradiction Hcode; reflexivity.
Qed.

(** X5.  A name that is truthy and not a string makes [validateProductData]
    throw a [TypeError], not a [ValidationError], whatever the other fields
    are; so does such a category when the name is a string or falsy, and
    then a blank name goes unreported.  The state is untouched either
    way. *)
Theorem validateProductData_TypeError (data : productData) (st : state World) :
  (trimmable (name data) = false →
   validate data st
   = (Throw (trim_type_error' "data.name" st), st))
  ∧ (trimmable (name data) = true →
     trimmable (category data) = false →
     validate data st
     = (Throw (trim_type_error' "data.category" st), st)).
Proof.
  split.
  - intros Hn. unfold validateProductData, bind.
    rewrite missing_or_blank_total, Hn. reflexivity.
  - intros Hn Hc. unfold validateProductData, bind.
    rewrite missing_or_blank_total, Hn.
    rewrite missing_or_blank_total, Hc. reflexivity.
Qed.

End ErrorHandling.

(** ** Trimming *)

Lemma trim_end_idempotent s : JS.trim_end (JS.trim_end s) = JS.trim_end s.
Proof.
  induction s as [|c s IH]; [reflexivity|].
  cbn [JS.trim_end].
  destruct (JS.is_ws c && String.eqb (JS.trim_end s) "") eqn:E; [reflexivity|].
  cbn [JS.trim_end]. rewrite IH, E. reflexivity.
Qed.

Lemma trim_start_head s :
  JS.trim_start s = ""
  ∨ ∃ c s', JS.trim_start s = String c s' ∧ JS.is_ws c = false.
Proof.
  induction s as [|c s IH]; [left; reflexivity|].
  cbn [JS.trim_start]. destruct (JS.is_ws c) eqn:E; [exact IH|].
  right. eexists _, _. split; [reflexivity | exact E].
Qed.

Lemma trim_idempotent s : JS.trim (JS.trim s) = JS.trim s.
Proof.
  unfold JS.trim.
  destruct (trim_start_head s) as [->|(c & s' & -> & Hc)]; [reflexivity|].
  cbn [JS.trim_end]. rewrite Hc. cbn [andb JS.trim_start]. rewrite Hc.
  cbn [JS.trim_end]. rewrite Hc. cbn [andb].
  rewrite trim_end_idempotent. reflexivity.
Qed.

(** ** The generator, continued *)

Section GenerationMore.

Context {World : Type}.
Variable Date_toISOString : World -> string * World.
Variable Error_captureStackTrace : World -> string.
Variable chat_completions_create : request -> World -> provider_result * World.
Variable OPENAI_MODEL : option string.
Variable Number_toString : jsnum -> string.

Local Abbreviation validate :=
  (validateProductData Date_toISOString Error_captureStackTrace).
Local Abbreviation generate :=
  (generateContent Date_toISOString Error_captureStackTrace
     chat_completions_create OPENAI_MODEL Number_toString).
Local Abbreviation generateAll :=
  (generateAllContent Date_toISOString Error_captureStackTrace
     chat_completions_create OPENAI_MODEL Number_toString).
Local Abbreviation request_for :=
  (completion_request OPENAI_MODEL Number_toString).
Local Abbreviation requests_for' := (requests_for OPENAI_MODEL Number_toString).
Local Abbreviation process_rows' :=
  (process_rows Date_toISOString Error_captureStackTrace
     chat_completions_create OPENAI_MODEL Number_toString).
Local Abbreviation batch :=
  (processBatch Date_toISOString Error_captureStackTrace
     chat_completions_create OPENAI_MODEL Number_toString).


(** [generateAllContent] throws only what the validator threw. *)
Lemma generateAllContent_throws d e (st st' : state World) :
  generateAll d st = (Throw e, st') → validate d st = (Throw e, st').
Proof.
  intros Hrun.
  destruct (validate d st) as [[[]|e0] st0] eqn:Hv.
  - assert (Hok : (validate d st).1 = Ret tt) by (rewrite Hv; reflexivity).
    destruct (generateAllContent_run Date_toISOString Error_captureStackTrace
                chat_completions_create OPENAI_MODEL Number_toString d st Hok)
      as (r & Hr & _).
    rewrite Hr in Hrun. discriminate.
  - rewrite (generateAllContent_invalid Date_toISOString
               Error_captureStackTrace chat_completions_create OPENAI_MODEL
               Number_toString _ _ _ _ Hv) in Hrun.
    injection Hrun as <- <-. reflexivity.
Qed.


Lemma process_rows_requests rows : ∀ acc (st : state World),
  Forall (λ row, violations (product_of_row row) = []) rows →
  ∃ rs st',
    process_rows' rows acc st = (Ret (acc ++ rs), st')
    ∧ length rs = length rows
    ∧ sent st'
      = sent st ++ flat_map (λ row, requests_for' (product_of_row row)) rows
    ∧ ∀ more, process_rows' (rows ++ more) acc st
              = process_rows' more (acc ++ rs) st'.
Proof.
  induction rows as [|row rest IH]; intros acc st Hall.
  - exists [], st. rewrite !app_nil_r. repeat split.
  - inversion Hall as [|? ? Hrow Hrest]; subst.
    assert (Hv : (validate (product_of_row row) st).1 = Ret tt)
      by (rewrite validate_row, Hrow; reflexivity).
    destruct (generateAllContent_run Date_toISOString Error_captureStackTrace
                chat_completions_create OPENAI_MODEL Number_toString _ _ Hv)
      as (r & Hrun & _).
    pose proof (state_after_sent Date_toISOString Error_captureStackTrace
                  chat_completions_create OPENAI_MODEL Number_toString
                  contentTypes (product_of_row row) st) as Hsent.
    match type of Hrun with
    | _ = (_, ?s1) =>
        destruct (IH (acc ++ [r]) s1 Hrest)
          as (rs & st' & Hrs & Hlen & Hreq & Hmore)
    end.
    exists (r :: rs), st'.
    rewrite process_rows_cons, Hrun, Hrs, <- app_assoc.
    split; [reflexivity|].
    split; [cbn; rewrite Hlen; reflexivity|].
    split.
    + rewrite Hreq. cbn [flat_map after_clock sent].
      rewrite Hsent, <- app_assoc. reflexivity.
    + intros more. cbn [app].
      rewrite process_rows_cons, Hrun, Hmore, <- app_assoc. reflexivity.
Qed.

(** X9.  On a sheet whose data rows all pass validation the row loop sends
    four requests per row, row by row and in the fixed order of the content
    types, and nothing else.  When a row that fails validation follows, the
    loop throws having sent the requests of the rows before it only. *)
Theorem processBatch_requests
    (header : list string) (rows : list (list string)) (st : state World) :
  Forall (λ row, ∀ s, (validate (product_of_row row) s).1 = Ret tt) rows →
  ∃ results st',
    batch (header :: rows) st = (Ret results, st')
    ∧ sent st'
      = sent st ++ flat_map (λ row, requests_for' (product_of_row row)) rows
    ∧ length (sent st') = (length (sent st) + 4 * length rows)%nat
    ∧ ∀ bad rest,
        (validate (product_of_row bad) st').1 ≠ Ret tt →
        ∃ e st'',
          batch (header :: rows ++ bad :: rest) st = (Throw e, st'')
          ∧ sent st''
            = sent st
              ++ flat_map (λ row, requests_for' (product_of_row row)) rows.
Proof.
  intros Hall.
  assert (Hall' : Forall (λ row, violations (product_of_row row) = []) rows).
  { eapply Forall_impl; [exact Hall|]. intros row Hrow.
    specialize (Hrow st). rewrite validate_row in Hrow.
    destruct (violations (product_of_row row)); [reflexivity | discriminate]. }
  destruct (process_rows_requests rows [] st Hall')
    as (rs & st' & Hrs & Hlen & Hreq & Hmore).
  exists rs, st'. unfold processBatch. cbn [drop]. rewrite drop_0.
  split; [exact Hrs|]. split; [exact Hreq|]. split.
  { rewrite Hreq, length_app. f_equal.
    clear. induction rows as [|row rest IH]; [reflexivity|].
    cbn [flat_map]. rewrite length_app, IH. cbn. lia. }
  intros bad rest Hbad.
  destruct (validate (product_of_row bad) st') as [[[]|e] st''] eqn:Hv;
    [contradiction Hbad; reflexivity|].
  exists e, st''. unfold processBatch. cbn [drop]. rewrite drop_0.
  rewrite Hmore, process_rows_cons.
  rewrite (generateAllContent_invalid Date_toISOString
             Error_captureStackTrace chat_completions_create OPENAI_MODEL
             Number_toString _ _ _ _ Hv).
  split; [reflexivity|].
  pose proof (validate_sent Date_toISOString Error_captureStackTrace
                (product_of_row bad) st') as Hs.
  rewrite Hv in Hs. cbn [snd] in Hs. rewrite Hs. exact Hreq.
Qed.

(** X10.  A row with fewer than three cells (a blank line of the sheet comes
    back as the empty row) never passes validation: it has no category, so
    the validator throws a [ValidationError] naming the category, after the
    name when that is missing too.  Hence such a row aborts the row loop,
    however many valid rows come before or after it. *)
Theorem short_row_aborts_batch (row : list string) :
  (length row ≤ 2)%nat →
  (∀ st : state World, ∃ e st',
      validate (product_of_row row) st = (Throw e, st')
      ∧ cls e = ClsValidationError
      ∧ (message e = Some "Product category is required"
         ∨ message e
           = Some "Product name is required; Product category is required"))
  ∧ (∀ header before after (st : state World),
       Forall (λ r, ∀ s, (validate (product_of_row r) s).1 = Ret tt) before →
       ∃ e st',
         batch (header :: before ++ row :: after) st = (Throw e, st')
         ∧ cls e = ClsValidationError).
Proof.
  intros Hlen.
  assert (Hthrow : ∀ st : state World, ∃ e st',
             validate (product_of_row row) st = (Throw e, st')
             ∧ cls e = ClsValidationError
             ∧ (message e = Some "Product category is required"
                ∨ message e
                  = Some "Product name is required; Product category is required")).
  { intros st. rewrite validate_row.
    destruct row as [|a [|b [|c rest]]]; [| | |simpl in Hlen; lia].
    - eexists _, _. split; [reflexivity|]. split; [reflexivity|]. right; reflexivity.
    - eexists _, _. split; [reflexivity|]. split; [reflexivity|]. right; reflexivity.
    - unfold violations. cbn [product_of_row name category price features cell
                                lookup list_lookup].
      change (blank (cell [a; b] 1)) with (blank (JStr b)).
      destruct (blank (JStr b));
        (eexists _, _; split; [reflexivity|]; split; [reflexivity|]);
        [right | left]; reflexivity. }
  split; [exact Hthrow|].
  intros header before after st Hall.
  assert (Hall' : Forall (λ r, violations (product_of_row r) = []) before).
  { eapply Forall_impl; [exact Hall|]. intros r Hr.
    specialize (Hr st). rewrite validate_row in Hr.
    destruct (violations (product_of_row r)); [reflexivity | discriminate]. }
  destruct (process_rows_requests before [] st Hall')
    as (rs & st' & _ & _ & _ & Hmore).
  destruct (Hthrow st') as (e & st'' & Hv & Hcls & _).
  exists e, st''. unfold processBatch. cbn [drop]. rewrite drop_0.
  rewrite Hmore, process_rows_cons.
  rewrite (generateAllContent_invalid Date_toISOString
             Error_captureStackTrace chat_completions_create OPENAI_MODEL
             Number_toString _ _ _ _ Hv).
  split; [reflexivity | exact Hcls].
Qed.

End GenerationMore.

(** ** The endpoints *)

Section EndpointProperties.

Context {World : Type}.
Variable Date_toISOString : World -> string * World.
Variable Error_captureStackTrace : World -> string.
Variable chat_completions_create : request -> World -> provider_result * World.
Variable OPENAI_MODEL : option string.
Variable Number_toString : jsnum -> string.
Variable sheets_values_get : jsval -> jsval -> World -> get_result * World.
Variable sheets_values_update :
  jsval -> jsval -> list (list jsval) -> World -> update_result * World.

Local Abbreviation validate :=
  (validateProductData Date_toISOString Error_captureStackTrace).
Local Abbreviation validateParams :=
  (validateSpreadsheetParams Date_toISOString Error_captureStackTrace).
Local Abbreviation generateAll :=
  (generateAllContent Date_toISOString Error_captureStackTrace
     chat_completions_create OPENAI_MODEL Number_toString).
Local Abbreviation batch :=
  (processBatch Date_toISOString Error_captureStackTrace
     chat_completions_create OPENAI_MODEL Number_toString).
Local Abbreviation process_rows' :=
  (process_rows Date_toISOString Error_captureStackTrace
     chat_completions_create OPENAI_MODEL Number_toString).
Local Abbreviation requests_for' := (requests_for OPENAI_MODEL Number_toString).
Local Abbreviation read := (readFromSpreadsheet Date_toISOString
                              Error_captureStackTrace sheets_values_get).
Local Abbreviation write := (writeToSpreadsheet Date_toISOString
                               Error_captureStackTrace sheets_values_update).
Local Abbreviation read_state' := (read_state sheets_values_get).
Local Abbreviation written_state' := (written_state sheets_values_update).
Local Abbreviation hafter_clock' := (hafter_clock Date_toISOString).
Local Abbreviation next' := (@next World Date_toISOString).
Local Abbreviation process_products :=
  (api_process_products Date_toISOString Error_captureStackTrace
     chat_completions_create OPENAI_MODEL Number_toString
     sheets_values_get sheets_values_update).
Local Abbreviation process_products_try' :=
  (process_products_try Date_toISOString Error_captureStackTrace
     chat_completions_create OPENAI_MODEL Number_toString
     sheets_values_get sheets_values_update).
Local Abbreviation generate_content :=
  (api_generate_content Date_toISOString Error_captureStackTrace
     chat_completions_create OPENAI_MODEL Number_toString).
Local Abbreviation sheets_error msg st :=
  (api_error Date_toISOString Error_captureStackTrace ClsGoogleSheetsError
     msg 500 "GOOGLE_SHEETS_ERROR" st).

Lemma hstate_eta (hs : hstate World) : mkH (core hs) (sheet_calls hs) = hs.
Proof. destruct hs; reflexivity. Qed.

Lemma lift_run {A} (c : M World A) o st' (hs : hstate World) :
  c (core hs) = (o, st') → lift c hs = (o, mkH st' (sheet_calls hs)).
Proof. intros Hc. unfold lift. rewrite Hc. reflexivity. Qed.

(** [readFromSpreadsheet], case by case on what the store answers. *)
Lemma readFromSpreadsheet_run id range (hs : hstate World) :
  read id range hs =
    match (sheets_values_get id range (world (core hs))).1 with
    | GetResolved values => (Ret (default [] values), read_state' id range hs)
    | GetRejected err =>
        (Throw (sheets_error
                  ("Failed to read spreadsheet: " +:+ show_opt (message err))
                  (core (read_state' id range hs))),
         hafter_clock' (read_state' id range hs))
    end.
Proof.
  unfold readFromSpreadsheet, htry_catch, hbind, await_get, read_state.
  destruct (sheets_values_get id range (world (core hs))) as [[values|err] w];
    cbn [fst snd]; [reflexivity|].
  unfold lift, new_GoogleSheetsError. cbn [core sheet_calls].
  rewrite new_APIError_run. reflexivity.
Qed.

(** [writeToSpreadsheet], case by case on what the store answers. *)
Lemma writeToSpreadsheet_run id range values (hs : hstate World) :
  write id range values hs =
    match (sheets_values_update id range values (world (core hs))).1 with
    | UpdateResolved => (Ret tt, written_state' id range values hs)
    | UpdateRejected err =>
        (Throw (sheets_error
                  ("Failed to write to spreadsheet: " +:+ show_opt (message err))
                  (core (written_state' id range values hs))),
         hafter_clock' (written_state' id range values hs))
    end.
Proof.
  unfold writeToSpreadsheet, htry_catch, await_update, written_state.
  destruct (sheets_values_update id range values (world (core hs)))
    as [[|err] w]; cbn [fst snd]; [reflexivity|].
  unfold hbind, lift, new_GoogleSheetsError. cbn [core sheet_calls].
  rewrite new_APIError_run. reflexivity.
Qed.

(** [next(error)] for an [APIError]. *)
Lemma next_APIError e (hs : hstate World) :
  instanceof_APIError e = true →
  next' e hs
  = (Ret {| http_status := match statusCode e with
                           | Some s => if s =? 0 then 500 else s
                           | None => 500
                           end;
            http_body := ErrorBody {| resp_error := message e;
                                      resp_code := code e;
                                      resp_field := nonempty (field e);
                                      resp_timestamp := timestamp e |} |},
     hs).
Proof.
  intros He. unfold next, hbind, lift.
  rewrite (errorHandler_APIError Date_toISOString e (core hs) He).
  rewrite hstate_eta. reflexivity.
Qed.

(** [next(error)] for the [TypeError] of a [trim] on a value without it. *)
Lemma next_TypeError path st (hs : hstate World) :
  ∃ payload,
    next' (trim_type_error Error_captureStackTrace path st) hs
    = (Ret {| http_status := 500; http_body := ErrorBody payload |},
       hafter_clock' hs)
    ∧ resp_code payload = Some "UNKNOWN_ERROR"
    ∧ resp_field payload = None
    ∧ resp_error payload = Some (path +:+ ".trim is not a function").
Proof.
  unfold next, hbind, lift.
  destruct (errorHandler_foreign Date_toISOString
              (trim_type_error Error_captureStackTrace path st) (core hs)
              eq_refl) as (text & -> & Htext & _).
  eexists. split; [reflexivity|]. split; [reflexivity|]. split; [reflexivity|].
  cbn. rewrite (Htext eq_refl). unfold or_default, nonempty. cbn.
  destruct path; reflexivity.
Qed.

Lemma validateSpreadsheetParams_ok_state params (st st' : state World) :
  validateParams params st = (Ret tt, st') → st' = st.
Proof.
  unfold validateSpreadsheetParams, bind.
  rewrite missing_or_blank_total.
  destruct (trimmable (spreadsheetId params)); [|discriminate].
  destruct (blank (spreadsheetId params)).
  { destruct (new_ValidationError_field_run Date_toISOString
                Error_captureStackTrace "Spreadsheet ID is required"
                (Some "spreadsheetId") st) as (e0 & -> & _). discriminate. }
  rewrite missing_or_blank_total.
  destruct (trimmable (inputRange params)); [|discriminate].
  destruct (blank (inputRange params)).
  { destruct (new_ValidationError_field_run Date_toISOString
                Error_captureStackTrace "Input range is required"
                (Some "inputRange") st) as (e0 & -> & _). discriminate. }
  rewrite missing_or_blank_total.
  destruct (trimmable (outputRange params)); [|discriminate].
  destruct (blank (outputRange params)).
  { destruct (new_ValidationError_field_run Date_toISOString
                Error_captureStackTrace "Output range is required"
                (Some "outputRange") st) as (e0 & -> & _). discriminate. }
  intros [= <-]. reflexivity.
Qed.

Lemma new_Date_run (hs : hstate World) :
  lift (new_Date_toISOString Date_toISOString) hs
  = (Ret (Date_toISOString (world (core hs))).1, hafter_clock' hs).
Proof.
  unfold lift, new_Date_toISOString, hafter_clock, after_clock.
  destruct (Date_toISOString (world (core hs))); reflexivity.
Qed.

(** The [try] of [/api/process-products] once the parameters are accepted. *)
Lemma process_products_try_valid body (hs : hstate World) :
  (validateParams body (core hs)).1 = Ret tt →
  process_products_try' body hs =
    match read (spreadsheetId body) (inputRange body) hs with
    | (Throw e, hs1) => (Throw e, hs1)
    | (Ret rows, hs1) =>
        if (length rows =? 0)%nat then
          (Ret {| http_status := 400;
                  http_body :=
                    NoDataBody (Date_toISOString (world (core hs1))).1 |},
           hafter_clock' hs1)
        else
          match batch rows (core hs1) with
          | (Throw e, st2) => (Throw e, mkH st2 (sheet_calls hs1))
          | (Ret results, st2) =>
              match write (spreadsheetId body) (outputRange body)
                      (outputData results) (mkH st2 (sheet_calls hs1)) with
              | (Throw e, hs3) => (Throw e, hs3)
              | (Ret _, hs3) =>
                  (Ret {| http_status := 200;
                          http_body :=
                            ProcessedBody (length (drop 1 rows)) results
                              (Date_toISOString (world (core hs3))).1 |},
                   hafter_clock' hs3)
              end
          end
    end.
Proof.
  intros Hok.
  destruct (validateParams body (core hs)) as [o st'] eqn:Hv.
  simpl in Hok. subst o.
  pose proof (validateSpreadsheetParams_ok_state _ _ _ Hv) as ->.
  unfold process_products_try, hbind.
  rewrite (lift_run _ _ _ _ Hv), hstate_eta.
  destruct (read (spreadsheetId body) (inputRange body) hs) as [[rows|e] hs1];
    [|reflexivity].
  destruct (length rows =? 0)%nat.
  - rewrite new_Date_run. reflexivity.
  - unfold lift at 1.
    destruct (batch rows (core hs1)) as [[results|e] st2]; [|reflexivity].
    destruct (write (spreadsheetId body) (outputRange body)
                (outputData results) (mkH st2 (sheet_calls hs1)))
      as [[[]|e] hs3]; [|reflexivity].
    rewrite new_Date_run. reflexivity.
Qed.

(** The row loop throws only a [ValidationError]. *)
Lemma process_rows_throws rows : ∀ acc e (st st' : state World),
  process_rows' rows acc st = (Throw e, st') →
  cls e = ClsValidationError
  ∧ statusCode e = Some 400
  ∧ code e = Some "VALIDATION_ERROR"
  ∧ field e = None
  ∧ ∃ row, In row rows
           ∧ violations (product_of_row row) ≠ []
           ∧ message e
             = Some (String.concat "; " (violations (product_of_row row))).
Proof.
  induction rows as [|row rest IH]; intros acc e st st' Hrun;
    [discriminate|].
  rewrite process_rows_cons in Hrun.
  destruct (generateAll (product_of_row row) st) as [[r|e0] st0] eqn:Hg.
  - destruct (IH _ _ _ _ Hrun) as (? & ? & ? & ? & row' & Hin & ? & ?).
    repeat split; try assumption. exists row'. repeat split; try assumption.
    right; exact Hin.
  - injection Hrun as <- <-.
    apply generateAllContent_throws in Hg.
    rewrite validate_row in Hg.
    destruct (violations (product_of_row row)) as [|m errs] eqn:Ev;
      [discriminate|].
    injection Hg as <- _.
    repeat split. exists row. rewrite Ev.
    split; [left; reflexivity|]. split; [discriminate | reflexivity].
Qed.

(** X11.  Parameters that [validateSpreadsheetParams] does not accept stop
    [/api/process-products] before anything else happens: the spreadsheet
    store is not called and no request goes to the provider.  The answer is
    400 with code ["VALIDATION_ERROR"] and the name of the offending
    parameter in [field], or 500 with code ["UNKNOWN_ERROR"] when a
    parameter is truthy and not a string. *)
Theorem process_products_rejects_parameters
    (body : spreadsheetParams) (hs : hstate World) :
  (validateParams body (core hs)).1 ≠ Ret tt →
  ∃ resp hs' payload,
    process_products body hs = (Ret resp, hs')
    ∧ http_body resp = ErrorBody payload
    ∧ sheet_calls hs' = sheet_calls hs
    ∧ sent (core hs') = sent (core hs)
    ∧ ((http_status resp = 400
        ∧ resp_code payload = Some "VALIDATION_ERROR"
        ∧ ∃ fld, resp_field payload = Some fld
                 ∧ In fld ["spreadsheetId"; "inputRange"; "outputRange"])
       ∨ (http_status resp = 500
          ∧ resp_code payload = Some "UNKNOWN_ERROR"
          ∧ resp_field payload = None)).
Proof.
  intros Hbad.
  destruct (validateParams body (core hs)) as [[[]|e] st'] eqn:Hv;
    [contradiction Hbad; reflexivity|].
  unfold api_process_products, htry_catch, process_products_try, hbind.
  rewrite (lift_run _ _ _ _ Hv).
  destruct (validateSpreadsheetParams_throws _ _ _ _ _ _ Hv)
    as [Hsent [(Hcls & Hsc & Hcode & fld & Hfld & Hin)|(path & -> & ->)]].
  - rewrite next_APIError
      by (unfold instanceof_APIError; rewrite Hcls; reflexivity).
    eexists _, _, _. split; [reflexivity|]. split; [reflexivity|].
    split; [reflexivity|]. split; [exact Hsent|]. left.
    cbn. rewrite Hsc, Hcode, Hfld. split; [reflexivity|]. split; [reflexivity|].
    exists fld. split; [|exact Hin].
    destruct Hin as [<-|[<-|[<-|[]]]]; reflexivity.
  - rewrite hstate_eta.
    destruct (next_TypeError path (core hs) hs) as (payload & -> & Hc & Hf & _).
    eexists _, _, _. split; [reflexivity|]. split; [reflexivity|].
    split; [reflexivity|]. split; [reflexivity|]. right.
    split; [reflexivity|]. split; assumption.
Qed.

(** X12.  When the read of the input range is rejected,
    [/api/process-products] answers 500 with code ["GOOGLE_SHEETS_ERROR"] and
    the store's message behind ["Failed to read spreadsheet: "], whatever
    status the store's error reports; the store was called once (the read),
    nothing is written and no request goes to the provider. *)
Theorem process_products_read_failure
    (body : spreadsheetParams) (hs : hstate World) (err : jserror) :
  (validateParams body (core hs)).1 = Ret tt →
  (sheets_values_get (spreadsheetId body) (inputRange body)
     (world (core hs))).1 = GetRejected err →
  ∃ payload hs',
    process_products body hs
    = (Ret {| http_status := 500; http_body := ErrorBody payload |}, hs')
    ∧ resp_code payload = Some "GOOGLE_SHEETS_ERROR"
    ∧ resp_error payload
      = Some ("Failed to read spreadsheet: " +:+ show_opt (message err))
    ∧ sheet_calls hs'
      = sheet_calls hs ++ [SheetsGet (spreadsheetId body) (inputRange body)]
    ∧ sent (core hs') = sent (core hs).
Proof.
  intros Hok Hget.
  unfold api_process_products, htry_catch.
  rewrite (process_products_try_valid _ _ Hok), readFromSpreadsheet_run, Hget.
  rewrite next_APIError by reflexivity.
  eexists _, _. split; [reflexivity|]. repeat split.
Qed.

(** X13.  When the input range holds no row at all (the store answers
    without values, or with an empty list), [/api/process-products] answers
    400 with the ["NO_DATA"] body; nothing is written and no request goes to
    the provider. *)
Theorem process_products_no_data
    (body : spreadsheetParams) (hs : hstate World)
    (values : option (list (list string))) :
  (validateParams body (core hs)).1 = Ret tt →
  (sheets_values_get (spreadsheetId body) (inputRange body)
     (world (core hs))).1 = GetResolved values →
  values = None ∨ values = Some [] →
  ∃ now hs',
    process_products body hs
    = (Ret {| http_status := 400; http_body := NoDataBody now |}, hs')
    ∧ sheet_calls hs'
      = sheet_calls hs ++ [SheetsGet (spreadsheetId body) (inputRange body)]
    ∧ sent (core hs') = sent (core hs).
Proof.
  intros Hok Hget Hempty.
  unfold api_process_products, htry_catch.
  rewrite (process_products_try_valid _ _ Hok), readFromSpreadsheet_run, Hget.
  assert (Hrows : default [] values = []) by (destruct Hempty; subst; reflexivity).
  rewrite Hrows. cbn [length Nat.eqb].
  eexists _, _. split; [reflexivity|]. split; reflexivity.
Qed.

Lemma passing_rows rows (st : state World) :
  Forall (λ row, ∀ s : state World,
            (validate (product_of_row row) s).1 = Ret tt) rows →
  Forall (λ row, violations (product_of_row row) = []) rows.
Proof.
  intros Hall. eapply Forall_impl; [exact Hall|]. intros row Hrow.
  specialize (Hrow st). rewrite validate_row in Hrow.
  destruct (violations (product_of_row row)); [reflexivity | discriminate].
Qed.

Lemma outputData_shape results :
  length (outputData results) = S (length results)
  ∧ Forall (λ row, length row = 7%nat) (outputData results)
  ∧ head (outputData results) = Some output_header.
Proof.
  unfold outputData. split; [cbn; rewrite length_map; reflexivity|].
  split; [|reflexivity].
  constructor; [reflexivity|].
  apply Forall_forall. intros row Hin.
  apply list_elem_of_In, in_map_iff in Hin as (r & <- & _). reflexivity.
Qed.

(** X14.  On a sheet whose data rows all pass validation,
    [/api/process-products] reads once, processes every row and then writes
    exactly once, to the output range: the header row followed by one row of
    seven cells per result.  It answers 200 with the number of data rows and
    the results when the write is accepted, and 500 with code
    ["GOOGLE_SHEETS_ERROR"] and the store's message behind
    ["Failed to write to spreadsheet: "] when it is rejected; in that case
    the results are not returned although every request was sent.  A sheet
    with a header only is written back as the header alone. *)
Theorem process_products_writes_once
    (body : spreadsheetParams) (hs : hstate World)
    (header : list string) (rows : list (list string)) :
  (validateParams body (core hs)).1 = Ret tt →
  (sheets_values_get (spreadsheetId body) (inputRange body)
     (world (core hs))).1 = GetResolved (Some (header :: rows)) →
  Forall (λ row, ∀ s : state World,
            (validate (product_of_row row) s).1 = Ret tt) rows →
  ∃ results st2 resp hs',
    batch (header :: rows)
      (core (read_state' (spreadsheetId body) (inputRange body) hs))
    = (Ret results, st2)
    ∧ process_products body hs = (Ret resp, hs')
    ∧ length results = length rows
    ∧ sheet_calls hs'
      = sheet_calls hs
        ++ [SheetsGet (spreadsheetId body) (inputRange body);
            SheetsUpdate (spreadsheetId body) (outputRange body)
              (output_header :: map output_row results)]
    ∧ Forall (λ row, length row = 7%nat)
        (output_header :: map output_row results)
    ∧ sent (core hs')
      = sent (core hs)
        ++ flat_map (λ row, requests_for' (product_of_row row)) rows
    ∧ match (sheets_values_update (spreadsheetId body) (outputRange body)
               (output_header :: map output_row results) (world st2)).1 with
      | UpdateResolved =>
          ∃ now,
            resp = {| http_status := 200;
                      http_body := ProcessedBody (length rows) results now |}
      | UpdateRejected err =>
          ∃ payload,
            resp = {| http_status := 500; http_body := ErrorBody payload |}
            ∧ resp_code payload = Some "GOOGLE_SHEETS_ERROR"
            ∧ resp_error payload
              = Some ("Failed to write to spreadsheet: "
                      +:+ show_opt (message err))
      end.
Proof.
  intros Hok Hget Hall.
  destruct (process_rows_requests Date_toISOString Error_captureStackTrace
              chat_completions_create OPENAI_MODEL Number_toString rows []
              (core (read_state' (spreadsheetId body) (inputRange body) hs))
              (passing_rows _ (core hs) Hall))
    as (results & st2 & Hrun & Hlen & Hsent & _).
  assert (Hbatch : batch (header :: rows)
                     (core (read_state' (spreadsheetId body) (inputRange body) hs))
                   = (Ret results, st2)).
  { unfold processBatch. cbn [drop]. rewrite drop_0. exact Hrun. }
  unfold api_process_products, htry_catch.
  rewrite (process_products_try_valid _ _ Hok), readFromSpreadsheet_run, Hget.
  cbn [default from_option id length Nat.eqb]. rewrite Hbatch.
  rewrite writeToSpreadsheet_run. unfold outputData. cbn [core sheet_calls].
  destruct (sheets_values_update (spreadsheetId body) (outputRange body)
              (output_header :: map output_row results) (world st2)).1
    as [|err] eqn:Hup.
  - eexists results, st2, _, _. split; [reflexivity|]. split; [reflexivity|].
    split; [exact Hlen|].
    split; [cbn; rewrite <- app_assoc; reflexivity|].
    split; [apply (outputData_shape results)|].
    split; [exact Hsent|].
    rewrite Hup. eexists. cbn [drop]. rewrite drop_0. reflexivity.
  - rewrite next_APIError by reflexivity.
    eexists results, st2, _, _. split; [reflexivity|]. split; [reflexivity|].
    split; [exact Hlen|].
    split; [cbn; rewrite <- app_assoc; reflexivity|].
    split; [apply (outputData_shape results)|].
    split; [exact Hsent|].
    rewrite Hup. eexists. repeat split.
Qed.

(** X15.  When a data row fails validation, [/api/process-products] answers
    400 with code ["VALIDATION_ERROR"], no [field], and that row's
    violations as the message, and nothing is written to the sheet: the
    results of the rows before it, for which every request was sent, are
    lost. *)
Theorem process_products_invalid_row_writes_nothing
    (body : spreadsheetParams) (hs : hstate World)
    (header bad : list string) (before after : list (list string)) :
  (validateParams body (core hs)).1 = Ret tt →
  (sheets_values_get (spreadsheetId body) (inputRange body)
     (world (core hs))).1
  = GetResolved (Some (header :: before ++ bad :: after)) →
  Forall (λ row, ∀ s : state World,
            (validate (product_of_row row) s).1 = Ret tt) before →
  (∀ s : state World, (validate (product_of_row bad) s).1 ≠ Ret tt) →
  ∃ payload hs',
    process_products body hs
    = (Ret {| http_status := 400; http_body := ErrorBody payload |}, hs')
    ∧ resp_code payload = Some "VALIDATION_ERROR"
    ∧ resp_field payload = None
    ∧ resp_error payload
      = Some (String.concat "; " (violations (product_of_row bad)))
    ∧ sheet_calls hs'
      = sheet_calls hs ++ [SheetsGet (spreadsheetId body) (inputRange body)]
    ∧ sent (core hs')
      = sent (core hs)
        ++ flat_map (λ row, requests_for' (product_of_row row)) before.
Proof.
  intros Hok Hget Hall Hbad.
  destruct (process_rows_requests Date_toISOString Error_captureStackTrace
              chat_completions_create OPENAI_MODEL Number_toString before []
              (core (read_state' (spreadsheetId body) (inputRange body) hs))
              (passing_rows _ (core hs) Hall))
    as (results & st2 & _ & _ & Hsent & Hmore).
  specialize (Hbad st2). rewrite validate_row in Hbad.
  assert (Hthrow : validate (product_of_row bad) st2
                   = (Throw (validation_error Date_toISOString
                               Error_captureStackTrace
                               (String.concat "; "
                                  (violations (product_of_row bad))) st2),
                      after_clock Date_toISOString st2)).
  { rewrite validate_row.
    destruct (violations (product_of_row bad));
      [contradiction Hbad; reflexivity | reflexivity]. }
  assert (Hbatch : batch (header :: before ++ bad :: after)
                     (core (read_state' (spreadsheetId body) (inputRange body) hs))
                   = (Throw (validation_error Date_toISOString
                               Error_captureStackTrace
                               (String.concat "; "
                                  (violations (product_of_row bad))) st2),
                      after_clock Date_toISOString st2)).
  { unfold processBatch. cbn [drop]. rewrite drop_0.
    rewrite Hmore, process_rows_cons.
    rewrite (generateAllContent_invalid _ _ _ _ _ _ _ _ _ Hthrow).
    reflexivity. }
  unfold api_process_products, htry_catch.
  rewrite (process_products_try_valid _ _ Hok), readFromSpreadsheet_run, Hget.
  cbn [default from_option id length Nat.eqb]. rewrite Hbatch.
  rewrite next_APIError by reflexivity.
  eexists _, _. split; [reflexivity|]. repeat split. exact Hsent.
Qed.




End EndpointProperties.

(** ** The price check against the specification's words *)

Lemma ws_enum c :
  JS.is_ws c = true →
  c = ascii_of_N 9 ∨ c = ascii_of_N 10 ∨ c = ascii_of_N 11
  ∨ c = ascii_of_N 12 ∨ c = ascii_of_N 13 ∨ c = ascii_of_N 32
  ∨ c = ascii_of_N 160.
Proof.
  destruct c as [[] [] [] [] [] [] [] []]; vm_compute; intros H;
    try discriminate H; tauto.
Qed.

Lemma ws_not_digit radix c : JS.is_ws c = true → JS.digit_of radix c = None.
Proof.
  intros H.
  destruct (ws_enum c H) as [->|[->|[->|[->|[->|[->| ->]]]]]]; reflexivity.
Qed.

Lemma append_empty_l s : "" +:+ s = s.
Proof. reflexivity. Qed.

Lemma append_cons c a w : String c a +:+ w = String c (a +:+ w).
Proof. reflexivity. Qed.

Lemma trim_end_split u :
  ∃ w, u = JS.trim_end u +:+ w ∧ all_ws w = true.
Proof.
  induction u as [|c u (w & Hu & Hw)]; [exists ""; split; reflexivity|].
  cbn [JS.trim_end].
  destruct (JS.is_ws c) eqn:Hc; cbn [andb].
  - destruct (String.eqb_spec (JS.trim_end u) "") as [He|He].
    + exists (String c u). split; [reflexivity|].
      cbn [all_ws]. rewrite Hc, Hu, He. exact Hw.
    + exists w. split; [|exact Hw].
      change (String c u = String c (JS.trim_end u +:+ w)). f_equal. exact Hu.
  - exists w. split; [|exact Hw].
    change (String c u = String c (JS.trim_end u +:+ w)). f_equal. exact Hu.
Qed.

Lemma read_digits_app radix w a : ∀ acc cnt,
  all_ws w = true →
  JS.read_digits radix (a +:+ w) acc cnt
  = (let '(x, c, rest) := JS.read_digits radix a acc cnt in (x, c, rest +:+ w)).
Proof.
  induction a as [|b a IH]; intros acc cnt Hw.
  - rewrite ?append_empty_l, ?append_cons; cbn [JS.read_digits].
    destruct w as [|c w]; [reflexivity|].
    cbn [all_ws] in Hw. apply andb_prop in Hw as [Hc _].
    cbn [JS.read_digits]. rewrite (ws_not_digit radix c Hc). reflexivity.
  - rewrite ?append_empty_l, ?append_cons; cbn [JS.read_digits].
    destruct (JS.digit_of radix b); [apply IH, Hw | reflexivity].
Qed.

Lemma strip_prefix_app w p : ∀ a,
  has_ws p = false →
  all_ws w = true →
  JS.strip_prefix p (a +:+ w)
  = option_map (λ rest, rest +:+ w) (JS.strip_prefix p a).
Proof.
  induction p as [|c p IH]; intros a Hp Hw; [reflexivity|].
  cbn [has_ws] in Hp. apply orb_false_elim in Hp as [Hc Hp].
  destruct a as [|b a].
  - rewrite ?append_empty_l, ?append_cons; cbn [JS.strip_prefix option_map].
    destruct w as [|d w]; [reflexivity|].
    cbn [all_ws] in Hw. apply andb_prop in Hw as [Hd _].
    cbn [JS.strip_prefix].
    destruct (Ascii.eqb_spec c d) as [->|]; [congruence | reflexivity].
  - rewrite ?append_empty_l, ?append_cons; cbn [JS.strip_prefix].
    destruct (Ascii.eqb c b); [apply IH; assumption | reflexivity].
Qed.

(** A text of white space only is read as no number and no exponent. *)
Lemma read_exponent_ws w : all_ws w = true → JS.read_exponent w = (0, w).
Proof.
  destruct w as [|c w]; [reflexivity|].
  cbn [all_ws]. intros H. apply andb_prop in H as [Hc _].
  destruct (ws_enum c Hc) as [->|[->|[->|[->|[->|[->| ->]]]]]]; reflexivity.
Qed.

Lemma read_exponent_app w a :
  all_ws w = true →
  JS.read_exponent (a +:+ w)
  = (let '(x, rest) := JS.read_exponent a in (x, rest +:+ w)).
Proof.
  intros Hw.
  destruct a as [|c s1]; [rewrite ?append_empty_l, ?append_cons; apply read_exponent_ws, Hw|].
  rewrite ?append_empty_l, ?append_cons; cbn [JS.read_exponent].
  destruct (Ascii.eqb c "e" || Ascii.eqb c "E"); [|reflexivity].
  assert (Hsign : ∀ s2 neg,
            (let '(x, cnt, rest) := JS.read_digits 10 (s2 +:+ w) 0%N 0%nat in
             match cnt with
             | O => (0, String c (s1 +:+ w))
             | S _ => ((if neg : bool then - Z.of_N x else Z.of_N x), rest)
             end)
            = (let '(x, rest) :=
                 (let '(x, cnt, rest) := JS.read_digits 10 s2 0%N 0%nat in
                  match cnt with
                  | O => (0, String c s1)
                  | S _ => ((if neg then - Z.of_N x else Z.of_N x), rest)
                  end) in
               (x, rest +:+ w))).
  { intros s2 neg. rewrite (read_digits_app 10 w s2 0%N 0%nat Hw).
    destruct (JS.read_digits 10 s2 0%N 0%nat) as [[x cnt] rest].
    destruct cnt; reflexivity. }
  destruct s1 as [|sg s2].
  - rewrite ?append_empty_l, ?append_cons.
    assert (Hd : JS.read_digits 10 w 0%N 0%nat = (0%N, 0%nat, w)).
    { destruct w as [|d w']; [reflexivity|].
      cbn [all_ws] in Hw. apply andb_prop in Hw as [Hd _].
      cbn [JS.read_digits]. rewrite (ws_not_digit 10 d Hd). reflexivity. }
    destruct w as [|d w'].
    + reflexivity.
    + cbn [all_ws] in Hw. pose proof Hw as Hw'.
      apply andb_prop in Hw as [Hdw _].
      assert (Hm : Ascii.eqb d "-" = false ∧ Ascii.eqb d "+" = false).
      { destruct (ws_enum d Hdw) as [->|[->|[->|[->|[->|[->| ->]]]]]];
          split; reflexivity. }
      destruct Hm as [-> ->]. rewrite Hd. reflexivity.
  - rewrite ?append_empty_l, ?append_cons.
    destruct (Ascii.eqb sg "-"); [exact (Hsign s2 true)|].
    destruct (Ascii.eqb sg "+"); [exact (Hsign s2 false)|].
    exact (Hsign (String sg s2) false).
Qed.

Lemma read_unsigned_app neg w a :
  all_ws w = true →
  JS.read_unsigned neg (a +:+ w)
  = option_map (λ '(n, rest), (n, rest +:+ w)) (JS.read_unsigned neg a).
Proof.
  intros Hw. unfold JS.read_unsigned.
  rewrite (strip_prefix_app w "Infinity" a eq_refl Hw).
  destruct (JS.strip_prefix "Infinity" a); [reflexivity|].
  cbn [option_map].
  rewrite (read_digits_app 10 w a 0%N 0%nat Hw).
  destruct (JS.read_digits 10 a 0%N 0%nat) as [[i ni] r1].
  assert (Hint : match ni with
                 | O => None
                 | S _ =>
                     let '(x, rest) := JS.read_exponent (r1 +:+ w) in
                     Some (Dec neg i x, rest)
                 end
                 = option_map (λ '(n, rest), (n, rest +:+ w))
                     match ni with
                     | O => None
                     | S _ =>
                         let '(x, rest) := JS.read_exponent r1 in
                         Some (Dec neg i x, rest)
                     end).
  { destruct ni; [reflexivity|]. rewrite (read_exponent_app w r1 Hw).
    destruct (JS.read_exponent r1); reflexivity. }
  destruct r1 as [|c r1'].
  - rewrite ?append_empty_l, ?append_cons in *.
    destruct w as [|d w']; [exact Hint|].
    cbn [all_ws] in Hw. pose proof Hw as Hw'.
    apply andb_prop in Hw' as [Hd _].
    destruct (ws_enum d Hd) as [->|[->|[->|[->|[->|[->| ->]]]]]]; exact Hint.
  - rewrite ?append_empty_l, ?append_cons in *.
    destruct (Ascii.eqb_spec c ".") as [->|Hdot].
    + rewrite (read_digits_app 10 w r1' i 0%nat Hw).
      destruct (JS.read_digits 10 r1' i 0%nat) as [[m nf] r2].
      rewrite (read_exponent_app w r2 Hw).
      destruct (JS.read_exponent r2) as [x rest].
      destruct ni, nf; reflexivity.
    + destruct c as [[] [] [] [] [] [] [] []];
        try (contradiction Hdot; reflexivity); exact Hint.
Qed.

Lemma read_decimal_app w a :
  all_ws w = true →
  JS.read_decimal (a +:+ w)
  = option_map (λ '(n, rest), (n, rest +:+ w)) (JS.read_decimal a).
Proof.
  intros Hw. destruct a as [|c a].
  - rewrite ?append_empty_l, ?append_cons; cbn [JS.read_decimal option_map].
    destruct w as [|d w']; [reflexivity|].
    pose proof Hw as Hw'. cbn [all_ws] in Hw'.
    apply andb_prop in Hw' as [Hd _].
    pose proof (read_unsigned_app false (String d w') "" Hw) as Hu.
    rewrite ?append_empty_l, ?append_cons in Hu.
    unfold JS.read_decimal.
    assert (Hm : Ascii.eqb d "-" = false ∧ Ascii.eqb d "+" = false).
    { destruct (ws_enum d Hd) as [->|[->|[->|[->|[->|[->| ->]]]]]];
        split; reflexivity. }
    destruct Hm as [-> ->]. rewrite Hu. reflexivity.
  - rewrite ?append_empty_l, ?append_cons; cbn [JS.read_decimal].
    destruct (Ascii.eqb c "-"); [apply read_unsigned_app, Hw|].
    destruct (Ascii.eqb c "+"); [apply read_unsigned_app, Hw|].
    apply (read_unsigned_app false w (String c a) Hw).
Qed.

(** A text that [Number] reads in full as a decimal literal is read by
    [parseFloat] as the same number. *)
Lemma parseFloat_of_decimal s n :
  JS.read_decimal (JS.trim s) = Some (n, "") →
  JS.parseFloat_string s = n.
Proof.
  unfold JS.trim, JS.parseFloat_string. intros H.
  destruct (trim_end_split (JS.trim_start s)) as (w & Hu & Hw).
  rewrite Hu, (read_decimal_app w _ Hw), H. reflexivity.
Qed.

(** A text that [Number] reads as a hexadecimal, octal or binary literal is
    not below zero, and [parseFloat] reads it as zero. *)
Lemma parseFloat_of_nondecimal s n :
  JS.read_nondecimal (JS.trim s) = Some n →
  JS.lt0 n = false ∧ JS.lt0 (JS.parseFloat_string s) = false.
Proof.
  unfold JS.trim, JS.parseFloat_string. intros H.
  destruct (trim_end_split (JS.trim_start s)) as (w & Hu & Hw).
  rewrite Hu, (read_decimal_app w _ Hw).
  destruct (JS.trim_end (JS.trim_start s)) as [|c0 t']; [discriminate H|].
  unfold JS.read_nondecimal in H.
  destruct (Ascii.eqb_spec c0 "0") as [->|Hc0];
    [|destruct c0 as [[] [] [] [] [] [] [] []];
      try discriminate H; contradiction Hc0; reflexivity].
  destruct t' as [|p ds]; [discriminate H|].
  assert (Hp : (Ascii.eqb p "x" || Ascii.eqb p "X" || Ascii.eqb p "o"
                || Ascii.eqb p "O" || Ascii.eqb p "b" || Ascii.eqb p "B")
               = true).
  { destruct (Ascii.eqb p "x"), (Ascii.eqb p "X"), (Ascii.eqb p "o"),
      (Ascii.eqb p "O"), (Ascii.eqb p "b"), (Ascii.eqb p "B");
      try reflexivity; discriminate H. }
  split.
  - destruct (if Ascii.eqb p "x" || Ascii.eqb p "X" then Some 16%N
              else if Ascii.eqb p "o" || Ascii.eqb p "O" then Some 8%N
              else if Ascii.eqb p "b" || Ascii.eqb p "B" then Some 2%N
              else None) as [r|]; [|discriminate H].
    destruct (JS.read_digits r ds 0%N 0%nat) as [[v [|k]] [|? ?]];
      try discriminate H.
    injection H as <-. reflexivity.
  - clear H.
    assert (Hread : ∃ rest, JS.read_decimal (String "0" (String p ds))
                            = Some (Dec false 0 0, rest)).
    { repeat (apply orb_prop in Hp as [Hp|Hp]);
        apply Ascii.eqb_eq in Hp; subst p; eexists; reflexivity. }
    destruct Hread as (rest & ->). reflexivity.
Qed.

Lemma blank_reads_as_not_a_number s :
  JS.trim s = "" → JS.parseFloat_string s = NaN.
Proof.
  unfold JS.trim, JS.parseFloat_string. intros H.
  destruct (trim_start_head s) as [->|(c & s' & Hs & Hc)]; [reflexivity|].
  rewrite Hs in H. cbn [JS.trim_end] in H. rewrite Hc in H. discriminate H.
Qed.

(** For a text that is not blank, the price check rejects exactly what is
    not a non-negative number. *)
Lemma price_rejected_text s :
  JS.trim s ≠ "" →
  price_rejected (JStr s) = negb (spec_nonnegative_number (JStr s)).
Proof.
  intros Hs. unfold price_rejected, spec_nonnegative_number, JS.isNaN,
    JS.parseFloat, JS.ToNumber.
  rewrite (eqb_false_of_neq _ _ Hs). cbn [negb andb].
  rewrite negb_andb, !negb_involutive.
  destruct (JS.is_nan (JS.StringToNumber s)) eqn:En; [reflexivity|].
  cbn [orb].
  unfold JS.StringToNumber in *.
  rewrite (eqb_false_of_neq _ _ Hs) in *.
  destruct (JS.read_decimal (JS.trim s)) as [[n [|c rest]]|] eqn:Ed.
  - rewrite (parseFloat_of_decimal s n Ed). reflexivity.
  - destruct (JS.read_nondecimal (JS.trim s)) as [m|] eqn:Em;
      [|discriminate En].
    destruct (parseFloat_of_nondecimal s m Em) as [H1 H2].
    rewrite H1, H2. reflexivity.
  - destruct (JS.read_nondecimal (JS.trim s)) as [m|] eqn:Em;
      [|discriminate En].
    destruct (parseFloat_of_nondecimal s m Em) as [H1 H2].
    rewrite H1, H2. reflexivity.
Qed.

(** X6.  The price check of [validateProductData] never rejects a price that
    is a non-negative number in the specification's sense, and on a Number
    and on a text that is not blank it rejects exactly the prices that are
    not one.  What it lets through although it is not a non-negative number
    is therefore never a Number or a text with content: it is [null], a
    boolean, a blank text or an object. *)
Theorem price_check_against_specification (v : jsval) :
  (price_rejected v = true → spec_price_violation v)
  ∧ (∀ n, v = JNum n →
          price_rejected v = negb (spec_nonnegative_number v))
  ∧ (∀ s, v = JStr s → JS.trim s ≠ "" →
          price_rejected v = negb (spec_nonnegative_number v))
  ∧ (spec_price_violation v → price_rejected v = false →
     match v with
     | JNull | JBool _ | JObj _ => True
     | JStr s => JS.trim s = ""
     | JUndefined | JNum _ => False
     end).
Proof.
  assert (Hnum : ∀ n, price_rejected (JNum n)
                      = negb (spec_nonnegative_number (JNum n))).
  { intros n. unfold price_rejected, spec_nonnegative_number, JS.isNaN.
    cbn [JS.ToNumber JS.parseFloat].
    rewrite negb_andb, !negb_involutive. reflexivity. }
  split; [|split; [|split]].
  - intros Hrej. unfold spec_price_violation.
    destruct v as [| |b|n|s|r]; try (split; [discriminate | reflexivity]).
    + split; [discriminate|]. rewrite Hnum in Hrej.
      apply negb_true_iff in Hrej. exact Hrej.
    + split; [discriminate|].
      destruct (String.eqb_spec (JS.trim s) "") as [He|He].
      * unfold price_rejected, JS.isNaN, JS.ToNumber, JS.StringToNumber,
          JS.parseFloat in Hrej.
        rewrite He, (blank_reads_as_not_a_number s He) in Hrej.
        discriminate Hrej.
      * rewrite (price_rejected_text s He) in Hrej.
        apply negb_true_iff in Hrej. exact Hrej.
  - intros n ->. apply Hnum.
  - intros s -> Hs. apply price_rejected_text, Hs.
  - intros [Hdef Hspec] Hacc.
    destruct v as [| |b|n|s|r]; try exact I.
    + contradiction Hdef; reflexivity.
    + rewrite Hnum, Hspec in Hacc. discriminate Hacc.
    + destruct (String.eqb_spec (JS.trim s) "") as [He|He]; [exact He|].
      rewrite (price_rejected_text s He), Hspec in Hacc. discriminate Hacc.
Qed.

(* ===================================================================== *)
(** * Concrete runs *)
(* ===================================================================== *)

Import Scripted.

(** C1, the claim as written fails: on a sheet whose second product row has
    no name, the loop throws that row's [ValidationError] and returns no
    result list, although the first row was fully processed (four requests
    sent) and the third row is valid. *)
Lemma processBatch_aborts_on_invalid_row :
  (∃ e st',
      batch [header; row_widget; row_nameless; row_gadget] (start [])
      = (Throw e, st')
      ∧ cls e = ClsValidationError
      ∧ message e = Some "Product name is required"
      ∧ length (sent st') = 4%nat)
  ∧ ¬ ∃ results st',
        batch [header; row_widget; row_nameless; row_gadget] (start [])
        = (Ret results, st')
        ∧ length results = 3%nat.
Proof.
  split.
  - eexists _, _. split; [vm_compute; reflexivity|]. repeat split.
  - intros (results & st' & H & _). vm_compute in H. discriminate H.
Qed.

(** C1 on a sheet of two valid rows, and on the same sheet followed by a
    row without a name. *)
Lemma processBatch_valid_rows_in_order_witness :
  Forall (λ row, ∀ s, (validate (product_of_row row) s).1 = Ret tt)
    [row_widget; row_gadget]
  ∧ ∃ results st',
      batch [header; row_widget; row_gadget] (start []) = (Ret results, st')
      ∧ length results = 2%nat
      ∧ map productName results = [JStr "Widget"; JStr "Gadget"]
      ∧ ∃ e st'',
          batch [header; row_widget; row_gadget; row_nameless; row_widget]
            (start [])
          = (Throw e, st'')
          ∧ cls e = ClsValidationError.
Proof.
  assert (Hrows : Forall (λ row, ∀ s, (validate (product_of_row row) s).1 = Ret tt)
                    [row_widget; row_gadget]).
  { repeat constructor; intros s; reflexivity. }
  split; [exact Hrows|].
  destruct (processBatch_valid_rows_in_order Date_toISOString
              Error_captureStackTrace chat_completions_create OPENAI_MODEL
              Number_toString header [row_widget; row_gadget] (start []) Hrows)
    as (results & st' & Hrun & Hlen & Hnames & _ & Hbad).
  exists results, st'. split; [exact Hrun|]. split; [exact Hlen|].
  split; [exact Hnames|].
  destruct (Hbad row_nameless [row_widget]) as (e & st'' & Hthrow & _ & Hcls & _).
  { rewrite validate_row. discriminate. }
  exists e, st''. split; [exact Hthrow | exact Hcls].
Defined.

(** C2 on a run where the second call is rejected. *)
Lemma generateAllContent_accounts_for_every_kind_witness :
  (validate widget (start [Resolved [Some "T"]; Rejected (http_error 500 "down")])).1
  = Ret tt
  ∧ ∃ r st',
      generateAll widget (start [Resolved [Some "T"]; Rejected (http_error 500 "down")])
      = (Ret r, st')
      ∧ data r !! "title" = Some "T"
      ∧ data r !! "bulletPoints" = None
      ∧ filter (λ f, contentType f = bulletPoints) (failures r)
        = [{| contentType := bulletPoints;
              error := Some "Failed to generate bulletPoints: down" |}].
Proof.
  split; [reflexivity|].
  destruct (generateAllContent_accounts_for_every_kind Date_toISOString
              Error_captureStackTrace chat_completions_create OPENAI_MODEL
              Number_toString widget
              (start [Resolved [Some "T"]; Rejected (http_error 500 "down")])
              eq_refl)
    as (r & st' & Hrun & _ & _).
  exists r, st'. split; [exact Hrun|].
  vm_compute in Hrun. injection Hrun as <- _.
  repeat split.
Defined.

(** C3 on a run where only the call for [adCopy] is rejected. *)
Lemma generation_failures_are_isolated_witness :
  (validate widget
     (start [Resolved [Some " A title "]; Resolved [Some "points"];
             Resolved [Some "a+"]; Rejected (http_error 500 "boom")])).1
  = Ret tt
  ∧ ∃ r st',
      generateAll widget
        (start [Resolved [Some " A title "]; Resolved [Some "points"];
                Resolved [Some "a+"]; Rejected (http_error 500 "boom")])
      = (Ret r, st')
      ∧ map user_content (sent st')
        = map (λ ct, PROMPTS Number_toString ct widget) contentTypes
      ∧ data r !! "title" = Some "A title"
      ∧ data r !! "bulletPoints" = Some "points"
      ∧ data r !! "aContent" = Some "a+"
      ∧ data r !! "adCopy" = None
      ∧ failures r = [{| contentType := adCopy;
                         error := Some "Failed to generate adCopy: boom" |}]
      ∧ gen_status r = "partial_success".
Proof.
  split; [reflexivity|].
  destruct (generation_failures_are_isolated Date_toISOString
              Error_captureStackTrace chat_completions_create OPENAI_MODEL
              Number_toString widget
              (start [Resolved [Some " A title "]; Resolved [Some "points"];
                      Resolved [Some "a+"]; Rejected (http_error 500 "boom")])
              eq_refl)
    as (r & st' & Hrun & Hsent & _ & _ & _ & Honly).
  exists r, st'. split; [exact Hrun|].
  split; [rewrite Hsent; reflexivity|].
  edestruct Honly as (D1 & D2 & D3 & D4 & Hf & Hs);
    [vm_compute; reflexivity ..|].
  rewrite D1, D2, D3, D4, Hf, Hs. repeat split.
Defined.

(** C4 on a run where all four calls fail, each in its own way. *)
Lemma status_reflects_failures_witness :
  (validate widget
     (start [Rejected (http_error 429 "slow down");
             Rejected (http_error 401 "bad key");
             Rejected (http_error 503 "unavailable");
             Resolved []])).1
  = Ret tt
  ∧ ∃ r st',
      generateAll widget
        (start [Rejected (http_error 429 "slow down");
                Rejected (http_error 401 "bad key");
                Rejected (http_error 503 "unavailable");
                Resolved []])
      = (Ret r, st')
      ∧ gen_status r = "partial_success"
      ∧ length (failures r) = 4%nat
      ∧ map contentType (failures r) = contentTypes
      ∧ data r = ∅.
Proof.
  split; [reflexivity|].
  destruct (status_reflects_failures Date_toISOString
              Error_captureStackTrace chat_completions_create OPENAI_MODEL
              Number_toString widget
              (start [Rejected (http_error 429 "slow down");
                      Rejected (http_error 401 "bad key");
                      Rejected (http_error 503 "unavailable");
                      Resolved []])
              eq_refl)
    as (r & st' & Hrun & _ & _ & _ & Hall).
  exists r, st'. split; [exact Hrun|].
  apply Hall. intros ct; destruct ct; vm_compute; reflexivity.
Defined.

(** C5, the claim as written fails: the provider rejects the first request
    with status 401, and [generateAllContent] neither throws nor stops; it
    sends the three other requests and returns a ["partial_success"] result
    with the rejection entered in [errors] under [title]. *)
Lemma auth_rejection_does_not_abort :
  provider_answer title widget (start [Rejected (http_error 401 "bad key")])
  = Rejected (http_error 401 "bad key")
  ∧ ∃ r st',
      generateAll widget (start [Rejected (http_error 401 "bad key")])
      = (Ret r, st')
      ∧ gen_status r = "partial_success"
      ∧ failures r = [{| contentType := title;
                         error := Some "Invalid OpenAI API key" |}]
      ∧ data r !! "bulletPoints" = Some "ok"
      ∧ data r !! "aContent" = Some "ok"
      ∧ data r !! "adCopy" = Some "ok"
      ∧ length (sent st') = 4%nat.
Proof.
  split; [reflexivity|].
  eexists _, _. split; [vm_compute; reflexivity|]. repeat split.
Qed.

(** C5 (as the code has it) on a run where the third call is rejected
    with status 401. *)
Lemma auth_rejection_is_recorded_per_kind_witness :
  (validate widget
     (start [Resolved [Some "T"]; Resolved [Some "B"];
             Rejected (http_error 401 "bad key")])).1
  = Ret tt
  ∧ provider_answer aContent widget
      (start [Resolved [Some "T"]; Resolved [Some "B"];
              Rejected (http_error 401 "bad key")])
    = Rejected (http_error 401 "bad key")
  ∧ status (http_error 401 "bad key") = Some 401
  ∧ ∃ r st',
      generateAll widget
        (start [Resolved [Some "T"]; Resolved [Some "B"];
                Rejected (http_error 401 "bad key")])
      = (Ret r, st')
      ∧ gen_status r = "partial_success"
      ∧ In {| contentType := aContent; error := Some "Invalid OpenAI API key" |}
           (failures r)
      ∧ data r !! "aContent" = None.
Proof.
  split; [reflexivity|]. split; [reflexivity|]. split; [reflexivity|].
  destruct (auth_rejection_is_recorded_per_kind Date_toISOString
              Error_captureStackTrace chat_completions_create OPENAI_MODEL
              Number_toString widget
              (start [Resolved [Some "T"]; Resolved [Some "B"];
                      Rejected (http_error 401 "bad key")])
              aContent (http_error 401 "bad key") eq_refl eq_refl eq_refl)
    as (r & st' & Hrun & _ & Hs & Hin & Hd).
  exists r, st'. repeat split; assumption.
Defined.






(** C7 at concrete errors: a [RangeError] without any recognised shape, and
    a freshly built [QuotaError]. *)
Lemma formatErrorResponse_codes_witness :
  instanceof_APIError range_error = false
  ∧ status range_error ≠ Some 429
  ∧ status range_error ≠ Some 401
  ∧ (∀ s, status range_error = Some s → s < 500)
  ∧ (∃ resp st',
       format range_error (start []) = (Ret resp, st')
       ∧ resp_code resp = Some "UNKNOWN_ERROR"
       ∧ resp_error resp = Some "Invalid array length")
  ∧ (∃ q st1 resp,
       new_QuotaError Date_toISOString Error_captureStackTrace None (start [])
       = (Ret q, st1)
       ∧ handler q st1 = (Ret (429, resp), st1)
       ∧ resp_code resp = Some "QUOTA_EXCEEDED")
  ∧ format (with_stack range_error None) (start [])
    = format range_error (start []).
Proof.
  assert (H1 : status range_error ≠ Some 429) by discriminate.
  assert (H2 : status range_error ≠ Some 401) by discriminate.
  assert (H3 : ∀ s, status range_error = Some s → s < 500) by discriminate.
  split; [reflexivity|]. split; [exact H1|]. split; [exact H2|].
  split; [exact H3|].
  destruct (formatErrorResponse_codes Date_toISOString Error_captureStackTrace)
    as (Hquota & Hunknown & Hstack).
  split; [|split].
  - destruct (Hunknown range_error (start []) eq_refl H1 H2 H3)
      as (resp & st' & Hrun & Hcode & _ & Herr).
    exists resp, st'. split; [exact Hrun|]. split; [exact Hcode | exact Herr].
  - destruct (Hquota None (start [])) as (q & st1 & Hq & Hfmt).
    destruct (Hfmt st1) as (resp & _ & Hcode & Hhandler).
    exists q, st1, resp. split; [exact Hq|]. split; [exact Hhandler | exact Hcode].
  - apply (Hstack range_error None (start [])).
Defined.

(* ===================================================================== *)
(** * Concrete runs of the further properties *)
(* ===================================================================== *)

(** X1 on parameters whose input range is blank and whose output range is
    missing: the input range is the one reported. *)
Lemma validateSpreadsheetParams_first_blank_witness :
  trimmable (spreadsheetId Office.blank_range) = true
  ∧ trimmable (inputRange Office.blank_range) = true
  ∧ trimmable (outputRange Office.blank_range) = true
  ∧ ∃ e st',
      validateSpreadsheetParams Date_toISOString Error_captureStackTrace
        Office.blank_range (start [])
      = (Throw e, st')
      ∧ field e = Some "inputRange"
      ∧ message e = Some "Input range is required".
Proof.
  split; [reflexivity|]. split; [reflexivity|]. split; [reflexivity|].
  pose proof (validateSpreadsheetParams_first_blank Date_toISOString
                Error_captureStackTrace Office.blank_range (start [])
                eq_refl eq_refl eq_refl) as H.
  cbn in H. destruct H as (e & st' & Hrun & _ & _ & Hf & Hm & _).
  exists e, st'. split; [exact Hrun|]. split; [exact Hf | exact Hm].
Defined.

(** X2 on the error of a blank input range and on the error of a record
    without a name. *)
Lemma field_tag_tells_validators_apart_witness :
  (∃ e st' payload fld,
     validateSpreadsheetParams Date_toISOString Error_captureStackTrace
       Office.blank_range (start [])
     = (Throw e, st')
     ∧ cls e = ClsValidationError
     ∧ handler e (start []) = (Ret (400, payload), start [])
     ∧ resp_field payload = Some fld)
  ∧ (∃ e st' sc payload st3,
       validate (product (JStr "") (JStr "Tools") JUndefined) (start [])
       = (Throw e, st')
       ∧ handler e (start []) = (Ret (sc, payload), st3)
       ∧ resp_field payload = None).
Proof.
  destruct (field_tag_tells_validators_apart Date_toISOString
              Error_captureStackTrace) as [Hparams Hdata].
  split.
  - assert (Hr : ∃ e st',
               validateSpreadsheetParams Date_toISOString
                 Error_captureStackTrace Office.blank_range (start [])
               = (Throw e, st')
               ∧ cls e = ClsValidationError)
      by (eexists _, _; split; [vm_compute; reflexivity | reflexivity]).
    destruct Hr as (e & st' & Hv & Hcls).
    destruct (Hparams Office.blank_range e (start []) st' (start []) Hv Hcls)
      as (payload & fld & Hrun & _ & Hf & _).
    exists e, st', payload, fld. repeat split; assumption.
  - assert (Hr : ∃ e st',
               validate (product (JStr "") (JStr "Tools") JUndefined) (start [])
               = (Throw e, st'))
      by (eexists _, _; vm_compute; reflexivity).
    destruct Hr as (e & st' & Hv).
    destruct (Hdata (product (JStr "") (JStr "Tools") JUndefined) e (start [])
                st' (start []) Hv)
      as (sc & payload & st3 & Hrun & Hf).
    exists e, st', sc, payload, st3. repeat split; assumption.
Defined.

(** X4 on a provider error reporting status 429. *)
Lemma foreign_errors_answered_with_500_witness :
  instanceof_APIError (http_error 429 "slow down") = false
  ∧ statusCode (http_error 429 "slow down") = None
  ∧ ∃ payload st',
      handler (http_error 429 "slow down") (start []) = (Ret (500, payload), st')
      ∧ resp_code payload = Some "QUOTA_EXCEEDED".
Proof.
  split; [reflexivity|]. split; [reflexivity|].
  destruct (foreign_errors_answered_with_500 Date_toISOString
              (http_error 429 "slow down") (start []) eq_refl eq_refl)
    as (payload & st' & Hrun & _ & Hcode & _).
  exists payload, st'. split; [exact Hrun | exact Hcode].
Defined.

(** X5 on a record whose name is the number 5. *)
Lemma validateProductData_TypeError_witness :
  trimmable (JNum (Dec false 5 0)) = false
  ∧ ∃ e,
      validate (product (JNum (Dec false 5 0)) JNull (JStr "-5")) (start [])
      = (Throw e, start [])
      ∧ cls e = ClsOther "TypeError"
      ∧ message e = Some "data.name.trim is not a function".
Proof.
  split; [reflexivity|].
  destruct (validateProductData_TypeError Date_toISOString
              Error_captureStackTrace
              (product (JNum (Dec false 5 0)) JNull (JStr "-5")) (start []))
    as [Hname _].
  eexists. split; [apply Hname; reflexivity|]. split; reflexivity.
Defined.


(** X9 on a sheet of two valid rows. *)
Lemma processBatch_requests_witness :
  Forall (λ row, ∀ s, (validate (product_of_row row) s).1 = Ret tt)
    [row_widget; row_gadget]
  ∧ ∃ results st',
      batch [header; row_widget; row_gadget] (start []) = (Ret results, st')
      ∧ length (sent st') = 8%nat
      ∧ map user_content (sent st')
        = map (λ ct, PROMPTS Number_toString ct (product_of_row row_widget))
            contentTypes
          ++ map (λ ct, PROMPTS Number_toString ct (product_of_row row_gadget))
               contentTypes.
Proof.
  assert (Hrows : Forall (λ row, ∀ s, (validate (product_of_row row) s).1 = Ret tt)
                    [row_widget; row_gadget]).
  { repeat constructor; intros s; reflexivity. }
  split; [exact Hrows|].
  destruct (processBatch_requests Date_toISOString Error_captureStackTrace
              chat_completions_create OPENAI_MODEL Number_toString
              header [row_widget; row_gadget] (start []) Hrows)
    as (results & st' & Hrun & Hsent & Hlen & _).
  exists results, st'. split; [exact Hrun|]. split; [exact Hlen|].
  rewrite Hsent. reflexivity.
Defined.

(** X10 on the empty row, between two valid rows. *)
Lemma short_row_aborts_batch_witness :
  (length (@nil string) ≤ 2)%nat
  ∧ Forall (λ r, ∀ s, (validate (product_of_row r) s).1 = Ret tt) [row_widget]
  ∧ ∃ e st',
      batch [header; row_widget; []; row_gadget] (start []) = (Throw e, st')
      ∧ cls e = ClsValidationError.
Proof.
  assert (Hlen : (length (@nil string) ≤ 2)%nat) by (simpl; lia).
  assert (Hrows : Forall (λ r, ∀ s, (validate (product_of_row r) s).1 = Ret tt)
                    [row_widget]).
  { repeat constructor; intros s; reflexivity. }
  split; [exact Hlen|]. split; [exact Hrows|].
  destruct (short_row_aborts_batch Date_toISOString Error_captureStackTrace
              chat_completions_create OPENAI_MODEL Number_toString [] Hlen)
    as [_ Hbatch].
  exact (Hbatch header [row_widget] [row_gadget] (start []) Hrows).
Defined.

(** X11 on parameters whose input range is blank. *)
Lemma process_products_rejects_parameters_witness :
  (Office.validateParams Office.blank_range
     (core (Office.start (Office.mkWorld [] Office.good_sheet UpdateResolved)))).1
  ≠ Ret tt
  ∧ ∃ resp hs' payload,
      Office.process_products Office.blank_range
        (Office.start (Office.mkWorld [] Office.good_sheet UpdateResolved))
      = (Ret resp, hs')
      ∧ http_status resp = 400
      ∧ http_body resp = ErrorBody payload
      ∧ resp_field payload = Some "inputRange"
      ∧ sheet_calls hs' = []
      ∧ sent (core hs') = [].
Proof.
  assert (Hbad : (Office.validateParams Office.blank_range
                    (core (Office.start
                             (Office.mkWorld [] Office.good_sheet
                                UpdateResolved)))).1 ≠ Ret tt)
    by discriminate.
  split; [exact Hbad|].
  destruct (process_products_rejects_parameters Office.Date_toISOString
              Office.Error_captureStackTrace Office.chat_completions_create
              Office.OPENAI_MODEL Office.Number_toString
              Office.sheets_values_get Office.sheets_values_update
              Office.blank_range
              (Office.start (Office.mkWorld [] Office.good_sheet UpdateResolved))
              Hbad)
    as (resp & hs' & payload & Hrun & Hbody & Hcalls & Hsent & _).
  exists resp, hs', payload. split; [exact Hrun|].
  vm_compute in Hrun. injection Hrun as <- <-.
  injection Hbody as <-. repeat split.
Defined.

(** X12 on a store that rejects the read. *)
Lemma process_products_read_failure_witness :
  (Office.validateParams Office.params
     (core (Office.start
              (Office.mkWorld [] (GetRejected (Office.store_error "denied"))
                 UpdateResolved)))).1 = Ret tt
  ∧ ∃ payload hs',
      Office.process_products Office.params
        (Office.start
           (Office.mkWorld [] (GetRejected (Office.store_error "denied"))
              UpdateResolved))
      = (Ret {| http_status := 500; http_body := ErrorBody payload |}, hs')
      ∧ resp_code payload = Some "GOOGLE_SHEETS_ERROR"
      ∧ resp_error payload = Some "Failed to read spreadsheet: denied"
      ∧ sent (core hs') = [].
Proof.
  split; [reflexivity|].
  destruct (process_products_read_failure Office.Date_toISOString
              Office.Error_captureStackTrace Office.chat_completions_create
              Office.OPENAI_MODEL Office.Number_toString
              Office.sheets_values_get Office.sheets_values_update
              Office.params
              (Office.start
                 (Office.mkWorld [] (GetRejected (Office.store_error "denied"))
                    UpdateResolved))
              (Office.store_error "denied") eq_refl eq_refl)
    as (payload & hs' & Hrun & Hcode & Herr & _ & Hsent).
  exists payload, hs'. repeat split; assumption.
Defined.

(** X13 on a store whose input range is empty. *)
Lemma process_products_no_data_witness :
  (Office.validateParams Office.params
     (core (Office.start
              (Office.mkWorld [] (GetResolved None) UpdateResolved)))).1
  = Ret tt
  ∧ ∃ now hs',
      Office.process_products Office.params
        (Office.start (Office.mkWorld [] (GetResolved None) UpdateResolved))
      = (Ret {| http_status := 400; http_body := NoDataBody now |}, hs')
      ∧ sent (core hs') = [].
Proof.
  split; [reflexivity|].
  destruct (process_products_no_data Office.Date_toISOString
              Office.Error_captureStackTrace Office.chat_completions_create
              Office.OPENAI_MODEL Office.Number_toString
              Office.sheets_values_get Office.sheets_values_update
              Office.params
              (Office.start (Office.mkWorld [] (GetResolved None) UpdateResolved))
              None eq_refl eq_refl (or_introl eq_refl))
    as (now & hs' & Hrun & _ & Hsent).
  exists now, hs'. split; assumption.
Defined.

(** X14 on a store holding two valid rows that accepts the write. *)
Lemma process_products_writes_once_witness :
  (Office.validateParams Office.params
     (core (Office.start
              (Office.mkWorld [] Office.good_sheet UpdateResolved)))).1
  = Ret tt
  ∧ Forall (λ row, ∀ s : state Office.World,
              (validateProductData Office.Date_toISOString
                 Office.Error_captureStackTrace (product_of_row row) s).1
              = Ret tt) [row_widget; row_gadget]
  ∧ ∃ results now hs',
      Office.process_products Office.params
        (Office.start (Office.mkWorld [] Office.good_sheet UpdateResolved))
      = (Ret {| http_status := 200;
                http_body := ProcessedBody 2 results now |}, hs')
      ∧ length results = 2%nat
      ∧ sheet_calls hs'
        = [SheetsGet (JStr "sheet-1") (JStr "Products!A1:G");
           SheetsUpdate (JStr "sheet-1") (JStr "Results!A1:G")
             (output_header :: map output_row results)]
      ∧ length (sent (core hs')) = 8%nat.
Proof.
  assert (Hrows : Forall (λ row, ∀ s : state Office.World,
                            (validateProductData Office.Date_toISOString
                               Office.Error_captureStackTrace
                               (product_of_row row) s).1 = Ret tt)
                    [row_widget; row_gadget]).
  { repeat constructor; intros s; reflexivity. }
  split; [reflexivity|]. split; [exact Hrows|].
  destruct (process_products_writes_once Office.Date_toISOString
              Office.Error_captureStackTrace Office.chat_completions_create
              Office.OPENAI_MODEL Office.Number_toString
              Office.sheets_values_get Office.sheets_values_update
              Office.params
              (Office.start (Office.mkWorld [] Office.good_sheet UpdateResolved))
              header [row_widget; row_gadget] eq_refl eq_refl Hrows)
    as (results & st2 & resp & hs' & Hbatch & Hrun & Hlen & Hcalls & _ & Hsent & Hresp).
  vm_compute in Hbatch. injection Hbatch as <- <-.
  cbn [Office.sheets_values_update Office.write_result fst world] in Hresp.
  destruct Hresp as (now & ->).
  eexists _, now, hs'. split; [exact Hrun|]. split; [reflexivity|].
  split; [exact Hcalls|]. rewrite Hsent. reflexivity.
Defined.

(** X15 on a store whose second data row has no name. *)
Lemma process_products_invalid_row_writes_nothing_witness :
  (Office.validateParams Office.params
     (core (Office.start
              (Office.mkWorld [] Office.bad_sheet UpdateResolved)))).1
  = Ret tt
  ∧ (∀ s : state Office.World,
       (validateProductData Office.Date_toISOString
          Office.Error_captureStackTrace (product_of_row row_nameless) s).1
       ≠ Ret tt)
  ∧ ∃ payload hs',
      Office.process_products Office.params
        (Office.start (Office.mkWorld [] Office.bad_sheet UpdateResolved))
      = (Ret {| http_status := 400; http_body := ErrorBody payload |}, hs')
      ∧ resp_error payload = Some "Product name is required"
      ∧ sheet_calls hs'
        = [SheetsGet (JStr "sheet-1") (JStr "Products!A1:G")]
      ∧ length (sent (core hs')) = 4%nat.
Proof.
  assert (Hrows : Forall (λ row, ∀ s : state Office.World,
                            (validateProductData Office.Date_toISOString
                               Office.Error_captureStackTrace
                               (product_of_row row) s).1 = Ret tt)
                    [row_widget]).
  { repeat constructor; intros s; reflexivity. }
  assert (Hbad : ∀ s : state Office.World,
             (validateProductData Office.Date_toISOString
                Office.Error_captureStackTrace (product_of_row row_nameless) s).1
             ≠ Ret tt).
  { intros s. rewrite validate_row. discriminate. }
  split; [reflexivity|]. split; [exact Hbad|].
  destruct (process_products_invalid_row_writes_nothing
              Office.Date_toISOString Office.Error_captureStackTrace
              Office.chat_completions_create Office.OPENAI_MODEL
              Office.Number_toString Office.sheets_values_get
              Office.sheets_values_update Office.params
              (Office.start (Office.mkWorld [] Office.bad_sheet UpdateResolved))
              header row_nameless [row_widget] [row_gadget]
              eq_refl eq_refl Hrows Hbad)
    as (payload & hs' & Hrun & _ & _ & Herr & Hcalls & Hsent).
  exists payload, hs'. split; [exact Hrun|]. split; [exact Herr|].
  split; [exact Hcalls|]. rewrite Hsent. reflexivity.
Defined.



(** X6 on the text ["-5"], which is rejected, and on a blank text, which is
    let through. *)
Lemma price_check_against_specification_witness :
  price_rejected (JStr "-5") = true
  ∧ spec_price_violation (JStr "-5")
  ∧ spec_price_violation (JStr "  ")
  ∧ price_rejected (JStr "  ") = false
  ∧ JS.trim "  " = "".
Proof.
  destruct (price_check_against_specification (JStr "-5")) as (Hsound & _).
  destruct (price_check_against_specification (JStr "  "))
    as (_ & _ & _ & Hleak).
  assert (Hv : spec_price_violation (JStr "  "))
    by (split; [discriminate | reflexivity]).
  split; [reflexivity|]. split; [apply Hsound; reflexivity|].
  split; [exact Hv|]. split; [reflexivity|].
  exact (Hleak Hv eq_refl).
Defined.

(** X3 on an [OpenAIError] built with the status code 401: it is answered
    with 401 and the code of its class. *)
Lemma constructed_errors_round_trip_witness :
  Some 401 ≠ Some 0
  ∧ ∃ e st1,
      new_OpenAIError Date_toISOString Error_captureStackTrace
        "Incorrect API key" (Some 401) (start [])
      = (Ret e, st1)
      ∧ ∃ payload,
          handler e (start []) = (Ret (401, payload), start [])
          ∧ resp_error payload = Some "Incorrect API key"
          ∧ resp_code payload = Some "OPENAI_ERROR".
Proof.
  assert (Hsc : Some 401 ≠ Some 0) by discriminate.
  split; [exact Hsc|].
  destruct (constructed_errors_round_trip Date_toISOString
              Error_captureStackTrace (start []) (start []))
    as (_ & _ & _ & Hopenai).
  destruct (Hopenai "Incorrect API key" (Some 401) Hsc)
    as (e & st1 & Hnew & Hrun).
  exists e, st1. split; [exact Hnew|].
  eexists. split; [exact Hrun|]. split; reflexivity.
Defined.
